(** * BodhiLabs: the document normalization and upsert pipeline

    A shallow embedding of [scripts/preprocess.py] (the Normalizer) and
    [scripts/build_vectorstore.py] (the Loader), with the properties of
    the pipeline proved about it.

    Conventions of the embedding.
    - Python [str] is [string]; a character is one [ascii] code point, so
      [len] is [String.length] (text is read as Latin-1 code points).
    - A JSON scalar that the scripts only format or store is a [scalar]:
      an integer or a string.
    - A Python exception is an [exn] value; the scripts catch nothing, so
      the first exception ends the run.
    - Only [logger.warning] lines are kept as log events; [logger.info]
      lines carry no data into the result and are left out. *)

From Stdlib Require Import ZArith Ascii String List Lia.
From stdpp Require Import base option list strings pretty gmap fin_maps.

Open Scope string_scope.

(** ** Python values and string primitives *)

Module Py.

(** A JSON scalar as the scripts use it. *)
Inductive scalar : Type :=
  | SInt (z : Z)
  | SStr (s : string).

(** [str(x)] *)
Definition str (x : scalar) : string :=
  match x with
  | SInt z => pretty z
  | SStr s => s
  end.

Inductive exn : Type :=
  | KeyError (key : string)
  | IndexError
  | AttributeError (attr : string).

Definition nl : string := String (ascii_of_nat 10) "".
Definition quote : ascii := ascii_of_nat 39.
Definition lt_sign : ascii := ascii_of_nat 60.
Definition gt_sign : ascii := ascii_of_nat 62.
Definition space : ascii := ascii_of_nat 32.
Definition underscore : ascii := ascii_of_nat 95.

Fixpoint spaces (n : nat) : string :=
  match n with
  | O => ""
  | S k => String space (spaces k)
  end.

(** [text[:n]] *)
Fixpoint slice_to (n : nat) (s : string) : string :=
  match n, s with
  | S k, String c t => String c (slice_to k t)
  | _, _ => ""
  end.

(** [text.replace(old, new)] for a one-character [old]. *)
Fixpoint replace (old : ascii) (new : string) (s : string) : string :=
  match s with
  | "" => ""
  | String c t =>
      if Ascii.eqb c old then new +:+ replace old new t
      else String c (replace old new t)
  end.

(** One character of [str.lower()]: the upper-case letters of Latin-1 are
    A-Z, U+00C0-U+00D6 and U+00D8-U+00DE; each maps 32 code points up. *)
Definition lower_char (c : ascii) : ascii :=
  let n := nat_of_ascii c in
  if (((65 <=? n) && (n <=? 90)) || ((192 <=? n) && (n <=? 214))
      || ((216 <=? n) && (n <=? 222)))%nat
  then ascii_of_nat (n + 32) else c.

(** [text.lower()] *)
Fixpoint lower (s : string) : string :=
  match s with
  | "" => ""
  | String c t => String (lower_char c) (lower t)
  end.

(** [sep.join(items)] *)
Definition join (sep : string) (items : list string) : string :=
  String.concat sep items.

(** [l[i]] for [i >= 0] *)
Definition index {A} (l : list A) (i : nat) : exn + A :=
  match l !! i with
  | Some x => inr x
  | None => inl IndexError
  end.

(** Split at the first occurrence of [c]: the text before it and the text
    after it; [None] when [c] does not occur. *)
Fixpoint split_first (c : ascii) (s : string) : option (string * string) :=
  match s with
  | "" => None
  | String d t =>
      if Ascii.eqb d c then Some ("", t)
      else match split_first c t with
           | Some (u, v) => Some (String d u, v)
           | None => None
           end
  end.

End Py.

Import Py.

(** ** Helper functions of [preprocess.py] *)

Definition MAX_CHARS : nat := 2048.

(** The pattern of [clean_html] tried at the start of [s]: a less-than
    sign, the longest run of characters other than a greater-than sign (at
    least one), then a greater-than sign.  The result is the run. *)
Definition match_tag (s : string) : option string :=
  match s with
  | String c t =>
      if Ascii.eqb c lt_sign then
        match split_first gt_sign t with
        | Some (String b body, _) => Some (String b body)
        | _ => None
        end
      else None
  | "" => None
  end.

(** [re.sub] with that pattern and the empty replacement, scanning left
    to right.  [skip] is the number of characters that still belong to the
    match being deleted. *)
Fixpoint sub_tags (skip : nat) (s : string) : string :=
  match s with
  | "" => ""
  | String c t =>
      match skip with
      | S k => sub_tags k t
      | O =>
          match match_tag s with
          | Some body => sub_tags (S (String.length body)) t
          | None => String c (sub_tags 0 t)
          end
      end
  end.

Definition clean_html (text : string) : string := sub_tags 0 text.

(** The pattern of [parse_quoted_list] tried at the start of [s]: a single
    quote, the longest run (possibly empty) of characters other than a
    single quote, which is the captured group, then a single quote.  The
    result is the captured group. *)
Definition match_quoted (s : string) : option string :=
  match s with
  | String c t =>
      if Ascii.eqb c quote then
        match split_first quote t with
        | Some (item, _) => Some item
        | None => None
        end
      else None
  | "" => None
  end.

(** [re.findall] with that pattern: the captured groups of the
    non-overlapping matches, scanning left to right. *)
Fixpoint findall_quoted (skip : nat) (s : string) : list string :=
  match s with
  | "" => []
  | String c t =>
      match skip with
      | S k => findall_quoted k t
      | O =>
          match match_quoted s with
          | Some item => item :: findall_quoted (S (String.length item)) t
          | None => findall_quoted 0 t
          end
      end
  end.

Definition parse_quoted_list (text : string) : list string :=
  findall_quoted 0 text.

(** ** Exceptions and state: the monad of a script run *)

Inductive result (A : Type) : Type :=
  | Ok (a : A)
  | Raise (e : exn).
Arguments Ok {A} a.
Arguments Raise {A} e.

(** A computation over a world [W]: it returns or raises, and in both cases
    leaves the world as far as it got (an exception undoes nothing). *)
Definition M (W A : Type) : Type := W -> result A * W.

Definition ret {W A} (a : A) : M W A := fun w => (Ok a, w).

Definition raise {W A} (e : exn) : M W A := fun w => (Raise e, w).

Definition bind {W A B} (c : M W A) (k : A -> M W B) : M W B :=
  fun w =>
    match c w with
    | (Ok a, w') => k a w'
    | (Raise e, w') => (Raise e, w')
    end.

Definition modify {W} (f : W -> W) : M W unit := fun w => (Ok tt, f w).

Definition gets {W A} (f : W -> A) : M W A := fun w => (Ok (f w), w).

Definition lift {W A} (r : exn + A) : M W A :=
  match r with
  | inr a => ret a
  | inl e => raise e
  end.

Notation "'let*' x ':=' c 'in' k" := (bind c (fun x => k))
  (at level 10, x name, c at level 200, k at level 200).

(** [for x in xs: body], the loop variable state being [acc]. *)
Fixpoint for_each {W A S} (xs : list A) (body : A -> S -> M W S) (acc : S)
  : M W S :=
  match xs with
  | [] => ret acc
  | x :: rest => let* acc' := body x acc in for_each rest body acc'
  end.

(** [d[key]] on a JSON object whose values are scalars. *)
Definition getitem {W} (d : gmap string scalar) (key : string) : M W scalar :=
  match d !! key with
  | Some v => ret v
  | None => raise (KeyError key)
  end.

(** [d[key]] for a key of the export object that may be absent. *)
Definition getkey {W A} (field : option A) (key : string) : M W A :=
  match field with
  | Some v => ret v
  | None => raise (KeyError key)
  end.

(** [enumerate(l)] *)
Fixpoint enumerate_from {A} (i : nat) (l : list A) : list (nat * A) :=
  match l with
  | [] => []
  | x :: rest => (i, x) :: enumerate_from (S i) rest
  end.

Definition enumerate {A} (l : list A) : list (nat * A) := enumerate_from 0 l.

(** ** [json.dumps] on the values the Normalizer serializes *)

Module Json.

Definition dq : string := String (ascii_of_nat 34) "".
Definition backslash : string := String (ascii_of_nat 92) "".

Definition hex_digit (n : nat) : ascii :=
  if (n <? 10)%nat then ascii_of_nat (48 + n) else ascii_of_nat (87 + n).

(** One character under [ensure_ascii=True]: the short escapes, the
    printable range U+0020-U+007E as it is, everything else as a
    four-digit escape. *)
Definition escape_char (c : ascii) : string :=
  let n := nat_of_ascii c in
  if (n =? 34)%nat then backslash +:+ dq
  else if (n =? 92)%nat then backslash +:+ backslash
  else if (n =? 10)%nat then backslash +:+ "n"
  else if (n =? 13)%nat then backslash +:+ "r"
  else if (n =? 9)%nat then backslash +:+ "t"
  else if (n =? 8)%nat then backslash +:+ "b"
  else if (n =? 12)%nat then backslash +:+ "f"
  else if ((32 <=? n) && (n <=? 126))%nat then String c ""
  else backslash +:+ "u00"
       +:+ String (hex_digit (n / 16)) (String (hex_digit (n mod 16)) "").

Fixpoint escape (s : string) : string :=
  match s with
  | "" => ""
  | String c t => escape_char c +:+ escape t
  end.

Definition dumps_str (s : string) : string := dq +:+ escape s +:+ dq.

Definition dumps_scalar (x : scalar) : string :=
  match x with
  | SInt z => pretty z
  | SStr s => dumps_str s
  end.

(** [json.dumps] of a list, its items already serialized. *)
Definition dumps_list (items : list string) : string :=
  "[" +:+ join ", " items +:+ "]".

(** [json.dumps] of a dict, its values already serialized. *)
Definition dumps_dict (items : list (string * string)) : string :=
  "{" +:+ join ", " (map (fun kv => dumps_str kv.1 +:+ ": " +:+ kv.2) items)
  +:+ "}".

End Json.

(** ** Data model *)

(** *** The raw module export *)

Record Competency : Type := {
  competency_id : scalar;
  competency_type : string;
  module_compentency_area : string;
  module_competency_definition : string;
  activity_names : string
}.

Record Questions : Type := {
  question_ids : string;
  question_texts : string;
  correct_options_texts : string;
  question_id_competency_definition : string;
  options_texts : string
}.

Record McqGroup : Type := {
  competency : Competency;
  question : Questions
}.

Record Step : Type := {
  option_sequence : scalar;
  option_text : string
}.

Record ChecklistQuestion : Type := {
  question_id : scalar;
  question_text : string
}.

(** A checklist group: its keys are ['question'] and ['option']. *)
Record Checklist : Type := {
  cl_question : ChecklistQuestion;
  cl_option : list Step
}.

(** [raw_data[0]]: every key of the export object may be absent;
    [key_module_field] is a JSON object of scalars. *)
Record RawModule : Type := {
  key_module_field : option (gmap string scalar);
  question_type_mcq : option (list McqGroup);
  question_type_checklist : option (list Checklist)
}.

(** *** The canonical record and the module bundle *)

Module Rec.
Record t : Type := mk {
  id : scalar;
  embedding_text : string;
  metadata : list (string * scalar)
}.
End Rec.

Record ModuleBundle : Type := {
  module_info : gmap string scalar;
  competencies : list Rec.t;
  mcqs : list Rec.t;
  checklists : list Rec.t;
  total_vectors : nat
}.

(** *** The world of a Normalizer run *)

Inductive event : Type :=
  | TextTruncated (from to : nat)
  | ChecklistTooLong
  | CollectionExists (existing_count : nat)
  | Upserting (n : nat).

Record nworld : Type := {
  nlog : list event;
  nfiles : gmap string ModuleBundle
}.

Definition warning (e : event) : M nworld unit :=
  modify (fun w => {| nlog := (nlog w ++ [e])%list; nfiles := nfiles w |}).

Definition write_json (path : string) (data : ModuleBundle) : M nworld unit :=
  modify (fun w => {| nlog := nlog w; nfiles := <[path := data]> (nfiles w) |}).

(** ** The Normalizer: [preprocess.py] *)

Definition OUTPUT_DIR : string := "D:\BodhiLabs\Project\data\preprocessed".

Definition truncate_if_needed (text : string) (max_chars : nat)
  : M nworld string :=
  if (String.length text <=? max_chars)%nat then ret text
  else
    let* _ := warning (TextTruncated (String.length text) max_chars) in
    ret (slice_to max_chars text).

(** *** Competencies *)

Definition competency_text (comp : Competency) (learning_objectives : list string)
  : string :=
  "Competency: " +:+ module_compentency_area comp +:+ nl
  +:+ spaces 20 +:+ "Type: " +:+ competency_type comp +:+ nl
  +:+ nl
  +:+ spaces 20 +:+ "Definition: "
  +:+ clean_html (module_competency_definition comp) +:+ nl
  +:+ nl
  +:+ spaces 20 +:+ "This competency assesses:" +:+ nl
  +:+ spaces 20
  +:+ join nl (map (fun obj => "- " +:+ obj) (take 10 learning_objectives)) +:+ nl
  +:+ nl
  +:+ spaces 20 +:+ "Activities: "
  +:+ replace quote "" (activity_names comp).

Definition competency_metadata (comp : Competency) (question_ids : list string)
    (course_id module_name module_domain : scalar) : list (string * scalar) :=
  [ ("doc_type", SStr "competency");
    ("competency_id", competency_id comp);
    ("competency_type", SStr (competency_type comp));
    ("module_compentency_area", SStr (module_compentency_area comp));
    ("module_competency_definition",
      SStr (clean_html (module_competency_definition comp)));
    ("activity_names", SStr (replace quote "" (activity_names comp)));
    ("question_ids", SStr (Json.dumps_list (map Json.dumps_str question_ids)));
    ("question_count", SInt (Z.of_nat (length question_ids)));
    ("course_id", course_id);
    ("competency_name", module_name);
    ("module_domain", module_domain) ].

(** One turn of the competency loop; [module_fields['module_domain']] is
    read while the metadata dict is built, after the truncation. *)
Definition competency_body (module_fields : gmap string scalar)
    (course_id module_name : scalar) (comp_group : McqGroup)
    (competencies : list Rec.t) : M nworld (list Rec.t) :=
  let comp := competency comp_group in
  let questions := question comp_group in
  let question_ids := parse_quoted_list (question_ids questions) in
  let learning_objectives :=
    parse_quoted_list (question_id_competency_definition questions) in
  let* embed_text :=
    truncate_if_needed (competency_text comp learning_objectives) MAX_CHARS in
  let* module_domain := getitem module_fields "module_domain" in
  let metadata :=
    competency_metadata comp question_ids course_id module_name module_domain in
  ret (competencies ++ [Rec.mk (competency_id comp) embed_text metadata])%list.

(** *** MCQ questions *)

Definition mcq_text (comp : Competency)
    (question_text correct_option learning_objective options : string) : string :=
  "Question: " +:+ question_text +:+ nl
  +:+ spaces 24 +:+ "Correct Answer: " +:+ correct_option +:+ nl
  +:+ spaces 24 +:+ "Learning Objective: " +:+ learning_objective +:+ nl
  +:+ spaces 24 +:+ "All Options: " +:+ options +:+ nl
  +:+ spaces 24 +:+ "Competency: " +:+ module_compentency_area comp
  +:+ " (" +:+ competency_type comp +:+ ")".

Definition mcq_metadata (comp : Competency)
    (qid question_text correct_option learning_objective options : string)
    (course_id module_name module_domain : scalar) : list (string * scalar) :=
  [ ("doc_type", SStr "mcq");
    ("question_id", SStr qid);
    ("question_text", SStr question_text);
    ("options_text", SStr options);
    ("correct_option_text", SStr correct_option);
    ("question_id_competency_definition", SStr learning_objective);
    ("competency_id", competency_id comp);
    ("competency_type", SStr (competency_type comp));
    ("module_compentency_area", SStr (module_compentency_area comp));
    ("course_id", course_id);
    ("competency_name", module_name);
    ("module_domain", module_domain) ].

(** One turn of the inner loop: the f-string indexes the four lists in the
    order question text, correct option, learning objective, options. *)
Definition mcq_body (module_fields : gmap string scalar)
    (course_id module_name : scalar) (comp : Competency)
    (question_texts correct_options learning_objectives all_options : list string)
    (iq : nat * string) (mcqs : list Rec.t) : M nworld (list Rec.t) :=
  let* qtext := lift (index question_texts iq.1) in
  let* correct := lift (index correct_options iq.1) in
  let* objective := lift (index learning_objectives iq.1) in
  let* options := lift (index all_options iq.1) in
  let* embed_text :=
    truncate_if_needed (mcq_text comp qtext correct objective options) MAX_CHARS in
  let* module_domain := getitem module_fields "module_domain" in
  let metadata :=
    mcq_metadata comp iq.2 qtext correct objective options
      course_id module_name module_domain in
  ret (mcqs ++ [Rec.mk (SStr iq.2) embed_text metadata])%list.

Definition mcq_group_body (module_fields : gmap string scalar)
    (course_id module_name : scalar) (comp_group : McqGroup)
    (mcqs : list Rec.t) : M nworld (list Rec.t) :=
  let comp := competency comp_group in
  let questions := question comp_group in
  let qids := parse_quoted_list (question_ids questions) in
  let qtexts := parse_quoted_list (question_texts questions) in
  let correct_options := parse_quoted_list (correct_options_texts questions) in
  let learning_objectives :=
    parse_quoted_list (question_id_competency_definition questions) in
  let all_options := parse_quoted_list (options_texts questions) in
  for_each (enumerate qids)
    (mcq_body module_fields course_id module_name comp
       qtexts correct_options learning_objectives all_options)
    mcqs.

(** *** Checklists *)

Definition steps_text (steps : list Step) : string :=
  join nl (map (fun step => str (option_sequence step) +:+ ". " +:+ option_text step)
             steps).

Definition checklist_full_text (checklist : Checklist) : string :=
  "Procedural Checklist: " +:+ question_text (cl_question checklist) +:+ nl
  +:+ spaces 24 +:+ "Competency: Procedural Skills (Skill)" +:+ nl
  +:+ spaces 24 +:+ "Correct sequence ("
  +:+ pretty (length (cl_option checklist)) +:+ " steps):" +:+ nl
  +:+ spaces 24 +:+ steps_text (cl_option checklist).

Definition checklist_short_text (checklist : Checklist) : string :=
  "Procedural Checklist: " +:+ question_text (cl_question checklist) +:+ nl
  +:+ spaces 28 +:+ "Steps:" +:+ nl
  +:+ spaces 28 +:+ steps_text (cl_option checklist).

Definition steps_metadata (steps : list Step) : string :=
  Json.dumps_list
    (map (fun step =>
            Json.dumps_dict
              [ ("step_number", Json.dumps_scalar (option_sequence step));
                ("step_text", Json.dumps_str (option_text step)) ])
       steps).

Definition checklist_metadata (checklist : Checklist)
    (course_id module_name module_domain : scalar) : list (string * scalar) :=
  [ ("doc_type", SStr "checklist");
    ("question_id", SStr (str (question_id (cl_question checklist))));
    ("question_text", SStr (question_text (cl_question checklist)));
    ("total_steps", SInt (Z.of_nat (length (cl_option checklist))));
    ("steps", SStr (steps_metadata (cl_option checklist)));
    ("competency_type", SStr "Skill");
    ("course_id", course_id);
    ("competency_name", module_name);
    ("module_domain", module_domain) ].

(** The text handed to [truncate_if_needed]: the full template, or the
    short one after a warning when the full one is over budget. *)
Definition checklist_embed_text (checklist : Checklist) : M nworld string :=
  let embed_text := checklist_full_text checklist in
  if (MAX_CHARS <? String.length embed_text)%nat then
    let* _ := warning ChecklistTooLong in
    ret (checklist_short_text checklist)
  else ret embed_text.

Definition checklist_body (module_fields : gmap string scalar)
    (course_id module_name : scalar) (checklist : Checklist)
    (checklists : list Rec.t) : M nworld (list Rec.t) :=
  let* embed_text := checklist_embed_text checklist in
  let* embed_text := truncate_if_needed embed_text MAX_CHARS in
  let* module_domain := getitem module_fields "module_domain" in
  let metadata :=
    checklist_metadata checklist course_id module_name module_domain in
  ret (checklists ++
       [Rec.mk (question_id (cl_question checklist)) embed_text metadata])%list.

(** *** The script *)

Definition output_file (course_id : scalar) : string :=
  OUTPUT_DIR +:+ "/processed_module_" +:+ str course_id +:+ ".json".

Definition preprocess (raw_data : list RawModule) : M nworld ModuleBundle :=
  let* raw := lift (index raw_data 0) in
  let* module_fields := getkey (key_module_field raw) "key_module_field" in
  let* course_id := getitem module_fields "course_id" in
  let* module_name := getitem module_fields "competency_name" in
  let* groups := getkey (question_type_mcq raw) "question_type_mcq" in
  let* competencies :=
    for_each groups (competency_body module_fields course_id module_name) [] in
  let* mcqs :=
    for_each groups (mcq_group_body module_fields course_id module_name) [] in
  let* checklists :=
    match question_type_checklist raw with
    | Some groups =>
        for_each groups (checklist_body module_fields course_id module_name) []
    | None => ret []
    end in
  let processed_data :=
    {| module_info := module_fields;
       competencies := competencies;
       mcqs := mcqs;
       checklists := checklists;
       total_vectors := length competencies + length mcqs + length checklists |} in
  let* _ := write_json (output_file course_id) processed_data in
  ret processed_data.

(** ** The Loader: [build_vectorstore.py] *)

Record Document : Type := {
  page_content : string;
  doc_metadata : list (string * scalar)
}.

Definition document_body (rec : Rec.t) (acc : list Document * list string)
  : list Document * list string :=
  let doc := {| page_content := Rec.embedding_text rec;
                doc_metadata := Rec.metadata rec |} in
  ((acc.1 ++ [doc])%list, (acc.2 ++ [str (Rec.id rec)])%list).

(** [name.lower()] on the JSON value of ['competency_name']: an integer has
    no such method. *)
Definition lower_method {W} (x : scalar) : M W string :=
  match x with
  | SStr s => ret (lower s)
  | SInt _ => raise (AttributeError "lower")
  end.

Definition load_module_documents {W} (data : ModuleBundle)
  : M W (list Document * list string * string) :=
  let module_info := module_info data in
  let* course_id := getitem module_info "course_id" in
  let* competency_name := getitem module_info "competency_name" in
  let* lowered := lower_method competency_name in
  let collection_name :=
    "module_" +:+ str course_id +:+ "_" +:+ replace space "_" lowered in
  let acc := ([], []) in
  let acc := fold_left (fun acc comp => document_body comp acc)
               (competencies data) acc in
  let acc := fold_left (fun acc mcq => document_body mcq acc) (mcqs data) acc in
  let acc := fold_left (fun acc checklist => document_body checklist acc)
               (checklists data) acc in
  ret (acc.1, acc.2, collection_name).

(** *** The vector store collaborator

    A collection is any type with a count, a lookup by id and a keyed
    upsert that obeys the contract: an existing id has its entry replaced,
    a new id gets a new entry, no other id is touched. *)

Section Loader.

Context {V : Type}.

(** What the store keeps for one id: the vector and the document. *)
Record Entry : Type := {
  vector : V;
  document : Document
}.

Class VectorStore (C : Type) : Type := {
  vs_empty : C;
  vs_count : C -> nat;
  vs_get : C -> string -> option Entry;
  vs_upsert : string -> Entry -> C -> C;
  vs_count_empty : vs_count vs_empty = 0;
  vs_get_empty : forall k, vs_get vs_empty k = None;
  vs_get_upsert_eq : forall c k e, vs_get (vs_upsert k e c) k = Some e;
  vs_get_upsert_ne :
    forall c k k' e, k <> k' -> vs_get (vs_upsert k e c) k' = vs_get c k';
  vs_count_upsert :
    forall c k e,
      vs_count (vs_upsert k e c) =
      match vs_get c k with
      | Some _ => vs_count c
      | None => S (vs_count c)
      end
}.

Context {C : Type} `{VectorStore C}.

(** The embedding function, [text -> vector]. *)
Variable embeddings : string -> V.

(** The persistent directory: collections by name. *)
Record lworld : Type := {
  llog : list event;
  chroma : gmap string C
}.

Definition lwarning (e : event) : M lworld unit :=
  modify (fun w => {| llog := (llog w ++ [e])%list; chroma := chroma w |}).

(** The collection a handle on [name] reads. *)
Definition collection (name : string) (w : lworld) : C :=
  default vs_empty (chroma w !! name).

(** [Chroma(collection_name=..., ...)]: open the collection, creating it
    empty when it does not exist. *)
Definition open_or_create (name : string) : M lworld unit :=
  modify (fun w =>
    match chroma w !! name with
    | Some _ => w
    | None => {| llog := llog w; chroma := <[name := vs_empty]> (chroma w) |}
    end).

Definition count (name : string) : M lworld nat :=
  gets (fun w => vs_count (collection name w)).

(** The upsert of a batch, id by id in the order submitted. *)
Fixpoint upsert_all (items : list (string * Document)) (c : C) : C :=
  match items with
  | [] => c
  | (k, doc) :: rest =>
      upsert_all rest
        (vs_upsert k {| vector := embeddings (page_content doc); document := doc |} c)
  end.

Definition add_documents (name : string) (documents : list Document)
    (ids : list string) : M lworld unit :=
  modify (fun w =>
    {| llog := llog w;
       chroma := <[name := upsert_all (zip ids documents) (collection name w)]>
                   (chroma w) |}).

(** The script; it returns the two counts it reports. *)
Definition build_vectorstore (data : ModuleBundle) : M lworld (nat * nat) :=
  let* loaded := load_module_documents data in
  let '(documents, ids, collection_name) := loaded in
  let* _ := open_or_create collection_name in
  let* existing_count := count collection_name in
  let* _ :=
    if (0 <? existing_count)%nat then
      let* _ := lwarning (CollectionExists existing_count) in
      lwarning (Upserting (length documents))
    else ret tt in
  let* _ := add_documents collection_name documents ids in
  let* final_count := count collection_name in
  ret (existing_count, final_count).

End Loader.

Arguments Entry V : clear implicits.
Arguments VectorStore V C : clear implicits.
Arguments lworld C : clear implicits.

(** * Vocabulary of the properties *)

(** [c] occurs in [s]. *)
Fixpoint contains (c : ascii) (s : string) : bool :=
  match s with
  | "" => false
  | String d t => Ascii.eqb d c || contains c t
  end.

(** The characters of a text, in order. *)
Fixpoint chars (s : string) : list ascii :=
  match s with
  | "" => []
  | String c t => c :: chars t
  end.

(** A tag span: what the pattern of [clean_html] matches. *)
Definition tag_span (t : string) : Prop :=
  exists body,
    t = String lt_sign (body +:+ String gt_sign "")
    /\ body <> "" /\ contains gt_sign body = false.

(** No suffix of [s] starts with a tag span. *)
Fixpoint tagfree (s : string) : Prop :=
  match_tag s = None /\
  match s with
  | "" => True
  | String _ t => tagfree t
  end.

(** A text made of quoted items, each after some quote-free filler. *)
Fixpoint quoted_text (items : list (string * string)) (tail : string) : string :=
  match items with
  | [] => tail
  | (filler, item) :: rest =>
      filler +:+ String quote (item +:+ String quote (quoted_text rest tail))
  end.

(** The fault of a missing structural key: Python's [KeyError]. *)
Definition MalformedInputError (e : exn) : Prop := exists key, e = KeyError key.

(** The export has a record to render before the script ends: an MCQ
    group, or no MCQ group and a checklist group. *)
Definition has_record (raw : RawModule) : Prop :=
  match question_type_mcq raw, question_type_checklist raw with
  | Some (_ :: _), _ => True
  | Some [], Some (_ :: _) => True
  | _, _ => False
  end.

(** The value [truncate_if_needed] returns. *)
Definition clip (max_chars : nat) (text : string) : string :=
  if (String.length text <=? max_chars)%nat then text
  else slice_to max_chars text.

(** The world [truncate_if_needed] leaves. *)
Definition log_truncation (text : string) (max_chars : nat) (w : nworld) : nworld :=
  if (String.length text <=? max_chars)%nat then w
  else {| nlog := (nlog w ++ [TextTruncated (String.length text) max_chars])%list;
          nfiles := nfiles w |}.

(** The record the competency loop appends for a group. *)
Definition competency_record (course_id module_name module_domain : scalar)
    (comp_group : McqGroup) : Rec.t :=
  let comp := competency comp_group in
  let questions := question comp_group in
  Rec.mk (competency_id comp)
    (clip MAX_CHARS
       (competency_text comp
          (parse_quoted_list (question_id_competency_definition questions))))
    (competency_metadata comp (parse_quoted_list (question_ids questions))
       course_id module_name module_domain).

(** The record the inner MCQ loop appends for one question. *)
Definition mcq_record (course_id module_name module_domain : scalar)
    (comp : Competency) (qid qtext correct objective options : string) : Rec.t :=
  Rec.mk (SStr qid)
    (clip MAX_CHARS (mcq_text comp qtext correct objective options))
    (mcq_metadata comp qid qtext correct objective options
       course_id module_name module_domain).

(** The text of a checklist before the final truncation. *)
Definition checklist_rendered (checklist : Checklist) : string :=
  if (MAX_CHARS <? String.length (checklist_full_text checklist))%nat
  then checklist_short_text checklist
  else checklist_full_text checklist.

(** The record the checklist loop appends for a group. *)
Definition checklist_record (course_id module_name module_domain : scalar)
    (checklist : Checklist) : Rec.t :=
  Rec.mk (question_id (cl_question checklist))
    (clip MAX_CHARS (checklist_rendered checklist))
    (checklist_metadata checklist course_id module_name module_domain).

(** The world after the text of a checklist is chosen. *)
Definition log_compression (checklist : Checklist) (w : nworld) : nworld :=
  if (MAX_CHARS <? String.length (checklist_full_text checklist))%nat
  then {| nlog := (nlog w ++ [ChecklistTooLong])%list; nfiles := nfiles w |}
  else w.

(** What a record of the competency loop is, for its group. *)
Definition competency_record_of
    (module_fields : gmap string scalar) (course_id module_name : scalar)
    (g : McqGroup) (r : Rec.t) : Prop :=
  exists d, module_fields !! "module_domain" = Some d
            /\ r = competency_record course_id module_name d g.

(** What a record of the MCQ loop is, for its group and question id. *)
Definition mcq_record_of
    (module_fields : gmap string scalar) (course_id module_name : scalar)
    (g : McqGroup) (qid : string) (r : Rec.t) : Prop :=
  exists d qt co lo ao,
    module_fields !! "module_domain" = Some d
    /\ r = mcq_record course_id module_name d (competency g) qid qt co lo ao.

(** What a record of the checklist loop is, for its group. *)
Definition checklist_record_of
    (module_fields : gmap string scalar) (course_id module_name : scalar)
    (c : Checklist) (r : Rec.t) : Prop :=
  exists d, module_fields !! "module_domain" = Some d
            /\ r = checklist_record course_id module_name d c.

(** The length up to which the four parallel lists can all be indexed. *)
Definition parallel_len (questions : Questions) : nat :=
  Nat.min
    (Nat.min (length (parse_quoted_list (question_texts questions)))
             (length (parse_quoted_list (correct_options_texts questions))))
    (Nat.min (length (parse_quoted_list (question_id_competency_definition questions)))
             (length (parse_quoted_list (options_texts questions)))).

(** The number of questions of a group: the ids its [question_ids] holds. *)
Definition question_count (comp_group : McqGroup) : nat :=
  length (parse_quoted_list (question_ids (question comp_group))).

(** The questions of all groups. *)
Definition total_questions (groups : list McqGroup) : nat :=
  sum_list (map question_count groups).

(** The ids of a group outrun one of its four parallel lists. *)
Definition ids_outrun (g : McqGroup) : Prop :=
  let q := question g in
  let n := length (parse_quoted_list (question_ids q)) in
  length (parse_quoted_list (question_texts q)) < n
  \/ length (parse_quoted_list (correct_options_texts q)) < n
  \/ length (parse_quoted_list (question_id_competency_definition q)) < n
  \/ length (parse_quoted_list (options_texts q)) < n.

(** The loops of the script and its last step, after the module identity
    was read. *)
Definition render_and_save
    (module_fields : gmap string scalar) (course_id module_name : scalar)
    (groups : list McqGroup)
    (cls : option (list Checklist)) : M nworld ModuleBundle :=
  let* competencies :=
    for_each groups (competency_body module_fields course_id module_name) [] in
  let* mcqs :=
    for_each groups (mcq_group_body module_fields course_id module_name) [] in
  let* checklists :=
    match cls with
    | Some groups =>
        for_each groups (checklist_body module_fields course_id module_name) []
    | None => ret []
    end in
  let processed_data :=
    {| module_info := module_fields;
       competencies := competencies;
       mcqs := mcqs;
       checklists := checklists;
       total_vectors := length competencies + length mcqs + length checklists |} in
  let* _ := write_json (output_file course_id) processed_data in
  ret processed_data.

(** The document of a record. *)
Definition to_document (r : Rec.t) : Document :=
  {| page_content := Rec.embedding_text r; doc_metadata := Rec.metadata r |}.

(** The records of a bundle in the order the Loader reads them. *)
Definition records (data : ModuleBundle) : list Rec.t :=
  (competencies data ++ mcqs data ++ checklists data)%list.

(** The batch the Loader submits for a bundle. *)
Definition batch (data : ModuleBundle) : list (string * Document) :=
  zip (map (fun r => str (Rec.id r)) (records data))
      (map to_document (records data)).

(** The module name as the collection name carries it: every space an
    underscore, every other character lower-cased. *)
Fixpoint normalized_module_name (name : string) : string :=
  match name with
  | "" => ""
  | String c t =>
      String (if Ascii.eqb c space then underscore else lower_char c)
        (normalized_module_name t)
  end.

(** The entry the store holds for a document. *)
Definition entry_of {V : Type} (embeddings : string -> V)
    (doc : Document) : Entry V :=
  {| vector := embeddings (page_content doc); document := doc |}.

(** The entry a batch leaves under [k], over what was there before. *)
Fixpoint overlay {V : Type} (embeddings : string -> V)
    (items : list (string * Document)) (before : option (Entry V))
    (k : string) : option (Entry V) :=
  match items with
  | [] => before
  | (k', doc) :: rest =>
      overlay embeddings rest
        (if decide (k' = k) then Some (entry_of embeddings doc) else before) k
  end.

(** A store kept as a finite map from ids to entries. *)
Definition gmap_count_upsert {V : Type} (c : gmap string (Entry V)) (k : string)
    (e : Entry V) :
  size (<[k := e]> c)
  = match c !! k with
    | Some _ => size c
    | None => S (size c)
    end :=
  eq_trans (map_size_insert k e c)
    match c !! k as o
      return match o with Some _ => id | None => S end (size c)
             = match o with Some _ => size c | None => S (size c) end
    with
    | Some _ => eq_refl
    | None => eq_refl
    end.

#[export] Instance gmap_store {V : Type} : VectorStore V (gmap string (Entry V)) :=
  {| vs_empty := ∅;
     vs_count := size;
     vs_get := fun c k => c !! k;
     vs_upsert := fun k e c => <[k := e]> c;
     vs_count_empty := map_size_empty;
     vs_get_empty := fun k => lookup_empty k;
     vs_get_upsert_eq := fun c k e => lookup_insert_eq c k e;
     vs_get_upsert_ne := fun c k k' e Hne => lookup_insert_ne c k k' e Hne;
     vs_count_upsert := gmap_count_upsert |}.

(** ** Example inputs *)

Module Example.

Definition module_fields : gmap string scalar :=
  <["course_id" := SInt 341]>
    (<["competency_name" := SStr "Urinary Catheterization"]>
       (<["module_domain" := SStr "Nursing"]> ∅)).

(** The identity block without its domain. *)
Definition module_fields_no_domain : gmap string scalar :=
  <["course_id" := SInt 341]>
    (<["competency_name" := SStr "Urinary Catheterization"]> ∅).

Definition comp : Competency :=
  {| competency_id := SStr "C-17";
     competency_type := "Knowledge";
     module_compentency_area := "Catheter care";
     module_competency_definition := "<p>Explain <b>balloon</b> inflation</p>";
     activity_names := "'Quiz', 'Video'" |}.

Definition questions : Questions :=
  {| question_ids := "'101', '102', '103'";
     question_texts := "'What?', 'Why?', 'When?'";
     correct_options_texts := "'A', 'B', 'C'";
     question_id_competency_definition := "'obj1', 'obj2', 'obj3'";
     options_texts := "'A|B', 'B|C', 'C|D'" |}.

(** Three ids, two question texts. *)
Definition questions_short : Questions :=
  {| question_ids := "'101', '102', '103'";
     question_texts := "'What?', 'Why?'";
     correct_options_texts := "'A', 'B', 'C'";
     question_id_competency_definition := "'obj1', 'obj2', 'obj3'";
     options_texts := "'A|B', 'B|C', 'C|D'" |}.

Definition group : McqGroup := {| competency := comp; question := questions |}.

Definition group_short : McqGroup :=
  {| competency := comp; question := questions_short |}.

Definition checklist : Checklist :=
  {| cl_question := {| question_id := SInt 7; question_text := "Insert catheter" |};
     cl_option :=
       [ {| option_sequence := SInt 1; option_text := "Wash hands" |};
         {| option_sequence := SInt 2; option_text := "Open the kit" |};
         {| option_sequence := SInt 3; option_text := "Insert" |};
         {| option_sequence := SInt 4; option_text := "Inflate the balloon" |} ] |}.

(** A checklist whose full rendering is over the budget. *)
Definition long_checklist : Checklist :=
  {| cl_question := {| question_id := SInt 9; question_text := "Flush the line" |};
     cl_option :=
       [ {| option_sequence := SInt 1;
            option_text := String.concat "" (replicate 300 "Rinse. ") |} ] |}.

(** One competency group with three questions and one checklist. *)
Definition raw : RawModule :=
  {| key_module_field := Some module_fields;
     question_type_mcq := Some [group];
     question_type_checklist := Some [checklist] |}.

Definition raw_short : RawModule :=
  {| key_module_field := Some module_fields;
     question_type_mcq := Some [group; group_short];
     question_type_checklist := Some [checklist] |}.

(** No domain, no groups. *)
Definition raw_no_domain_empty : RawModule :=
  {| key_module_field := Some module_fields_no_domain;
     question_type_mcq := Some [];
     question_type_checklist := None |}.

(** No domain, one group. *)
Definition raw_no_domain : RawModule :=
  {| key_module_field := Some module_fields_no_domain;
     question_type_mcq := Some [group];
     question_type_checklist := None |}.

Definition raw_no_fields : RawModule :=
  {| key_module_field := None;
     question_type_mcq := Some [group];
     question_type_checklist := None |}.

Definition world : nworld := {| nlog := []; nfiles := ∅ |}.

(** A text of 2100 characters. *)
Definition long_text : string := String.concat "" (replicate 300 "Rinse. ").

(** The bundle of [raw]: five records. *)
Definition bundle : ModuleBundle :=
  match preprocess [raw] world with
  | (Ok b, _) => b
  | (Raise _, _) =>
      {| module_info := ∅; competencies := []; mcqs := []; checklists := [];
         total_vectors := 0 |}
  end.

End Example.

Module ExampleStore.

(** A stand-in embedding: the length of the text. *)
Definition embeddings (text : string) : nat := String.length text.

Definition empty_world : lworld (gmap string (Entry nat)) :=
  {| llog := []; chroma := ∅ |}.

(** The world after one run of the Loader on the example bundle. *)
Definition loaded_world : lworld (gmap string (Entry nat)) :=
  (build_vectorstore embeddings Example.bundle empty_world).2.

End ExampleStore.

(** ** Vocabulary of the further properties *)

(** [md.get(key)] on a metadata dict. *)
Fixpoint metadata_get (key : string) (md : list (string * scalar)) : option scalar :=
  match md with
  | [] => None
  | (k, v) :: rest => if String.eqb k key then Some v else metadata_get key rest
  end.

(** The question records of a group: one for each id, in order, with the
    entries of the four parallel lists at the index of the id. *)
Definition mcq_records (course_id module_name module_domain : scalar)
    (g : McqGroup) : list Rec.t :=
  let q := question g in
  map (fun iq =>
         mcq_record course_id module_name module_domain (competency g) iq.2
           (default "" (parse_quoted_list (question_texts q) !! iq.1))
           (default "" (parse_quoted_list (correct_options_texts q) !! iq.1))
           (default "" (parse_quoted_list (question_id_competency_definition q) !! iq.1))
           (default "" (parse_quoted_list (options_texts q) !! iq.1)))
    (enumerate (parse_quoted_list (question_ids q))).

(** What a run that returns needs of its export: a first element with its
    identity block, course id, module name and MCQ list, whose parallel
    lists cover the ids of every group, and with a domain unless there is
    no group of either kind. *)
Definition normalizable (raw_data : list RawModule) : Prop :=
  exists raw rest mf groups,
    raw_data = raw :: rest
    /\ key_module_field raw = Some mf
    /\ is_Some (mf !! "course_id") /\ is_Some (mf !! "competency_name")
    /\ question_type_mcq raw = Some groups
    /\ Forall (fun g => question_count g <= parallel_len (question g)) groups
    /\ (is_Some (mf !! "module_domain")
        \/ (groups = [] /\ default [] (question_type_checklist raw) = [])).

(** A character [json.dumps] writes as it is: U+0020 to U+007E. *)
Definition printable (c : ascii) : bool :=
  ((32 <=? nat_of_ascii c) && (nat_of_ascii c <=? 126))%nat.

(** The name of the collection of a module. *)
Definition collection_name (course_id : scalar) (name : string) : string :=
  "module_" +:+ str course_id +:+ "_" +:+ normalized_module_name name.

(** The key under which the Loader submits a record. *)
Definition upsert_key (r : Rec.t) : string := str (Rec.id r).

(** What the store keeps for a record. *)
Definition stored_entry {V : Type} (embeddings : string -> V) (r : Rec.t) : Entry V :=
  {| vector := embeddings (Rec.embedding_text r); document := to_document r |}.

Module Example2.

(** The example bundle with the text of its checklist record rewritten. *)
Definition bundle_edited : ModuleBundle :=
  {| module_info := module_info Example.bundle;
     competencies := competencies Example.bundle;
     mcqs := mcqs Example.bundle;
     checklists :=
       map (fun r => Rec.mk (Rec.id r) "Insert catheter (revised)" (Rec.metadata r))
         (checklists Example.bundle);
     total_vectors := total_vectors Example.bundle |}.

(** An identity block whose module name is a number. *)
Definition module_fields_int_name : gmap string scalar :=
  <["course_id" := SInt 341]>
    (<["competency_name" := SInt 12]> (<["module_domain" := SStr "Nursing"]> ∅)).

Definition raw_int_name : RawModule :=
  {| key_module_field := Some module_fields_int_name;
     question_type_mcq := Some [Example.group];
     question_type_checklist := None |}.

(** A bundle without identity fields. *)
Definition bundle_no_info : ModuleBundle :=
  {| module_info := ∅; competencies := competencies Example.bundle; mcqs := [];
     checklists := []; total_vectors := 1 |}.


End Example2.

(** The text of a competency record before the truncation. *)
Definition competency_rendering (g : McqGroup) : string :=
  competency_text (competency g)
    (parse_quoted_list (question_id_competency_definition (question g))).

(** The texts of the question records of a group before the truncation,
    id by id. *)
Definition mcq_renderings (g : McqGroup) : list string :=
  let q := question g in
  map (fun iq =>
         mcq_text (competency g)
           (default "" (parse_quoted_list (question_texts q) !! iq.1))
           (default "" (parse_quoted_list (correct_options_texts q) !! iq.1))
           (default "" (parse_quoted_list (question_id_competency_definition q) !! iq.1))
           (default "" (parse_quoted_list (options_texts q) !! iq.1)))
    (enumerate (parse_quoted_list (question_ids q))).

(** The warning logged before a checklist falls back to the short
    template. *)
Definition compression_warning (c : Checklist) : list event :=
  if (MAX_CHARS <? String.length (checklist_full_text c))%nat
  then [ChecklistTooLong] else [].

Module Example3.

(** The example export with a checklist that is over the budget. *)
Definition raw_long : RawModule :=
  {| key_module_field := Some Example.module_fields;
     question_type_mcq := Some [Example.group];
     question_type_checklist := Some [Example.checklist; Example.long_checklist] |}.

End Example3.

(** * Properties *)

(** ** Strings *)

#[local] Arguments String.append : simpl nomatch.

Example clean_html_ex : clean_html "<b>balloon</b> inflation" = "balloon inflation".
Proof. reflexivity. Qed.

Example parse_quoted_list_ex : parse_quoted_list "'a', 'b', 'c'" = ["a"; "b"; "c"].
Proof. reflexivity. Qed.

Lemma append_assoc (a b c : string) : (a +:+ b) +:+ c = a +:+ (b +:+ c).
Proof. induction a as [|x a IH]; simpl; [reflexivity | now rewrite IH]. Qed.

Lemma append_nil_l (a : string) : "" +:+ a = a.
Proof. reflexivity. Qed.

Lemma append_empty_r (a : string) : a +:+ "" = a.
Proof. induction a as [|x a IH]; simpl; [reflexivity | now rewrite IH]. Qed.

Lemma length_append (a b : string) :
  String.length (a +:+ b) = String.length a + String.length b.
Proof. induction a as [|x a IH]; simpl; [reflexivity | now rewrite IH]. Qed.

Lemma length_spaces (n : nat) : String.length (spaces n) = n.
Proof. induction n as [|n IH]; simpl; [reflexivity | now rewrite IH]. Qed.

Lemma contains_append (c : ascii) (a b : string) :
  contains c (a +:+ b) = contains c a || contains c b.
Proof.
  induction a as [|x a IH]; simpl; [reflexivity|].
  rewrite IH. now rewrite orb_assoc.
Qed.

Lemma split_first_none (c : ascii) (s : string) :
  split_first c s = None <-> contains c s = false.
Proof.
  induction s as [|d t IH]; simpl; [tauto|].
  destruct (Ascii.eqb d c); simpl; [split; discriminate|].
  destruct (split_first c t) as [[u v]|]; [|tauto].
  split; [discriminate|]. intros Hc. apply IH in Hc. discriminate.
Qed.

Lemma split_first_append (c : ascii) (u v : string) :
  contains c u = false -> split_first c (u +:+ String c v) = Some (u, v).
Proof.
  induction u as [|d u IH]; simpl; intros Hu.
  - now rewrite Ascii.eqb_refl.
  - apply orb_false_iff in Hu as [Hd Hu]. rewrite Hd, (IH Hu). reflexivity.
Qed.

Lemma split_first_some (c : ascii) (s u v : string) :
  split_first c s = Some (u, v) -> s = u +:+ String c v /\ contains c u = false.
Proof.
  revert u v. induction s as [|d t IH]; simpl; intros u v Hs; [discriminate|].
  destruct (Ascii.eqb d c) eqn:Hd.
  - apply Ascii.eqb_eq in Hd. inversion Hs; subst. split; reflexivity.
  - destruct (split_first c t) as [[u' v']|]; [|discriminate].
    inversion Hs; subst. destruct (IH _ _ eq_refl) as [-> Hu].
    split; [reflexivity|]. simpl. now rewrite Hd.
Qed.

Lemma length_slice_to (n : nat) (s : string) :
  n <= String.length s -> String.length (slice_to n s) = n.
Proof.
  revert s. induction n as [|n IH]; intros [|c t]; simpl; intros Hn;
    try reflexivity; try lia.
  rewrite IH; [reflexivity | lia].
Qed.

Lemma slice_to_prefix (n : nat) (s : string) :
  exists tail, s = slice_to n s +:+ tail.
Proof.
  revert s. induction n as [|n IH]; intros s.
  - exists s. destruct s; reflexivity.
  - destruct s as [|c t]; [exists ""; reflexivity|].
    destruct (IH t) as [tail Ht]. exists tail. simpl. now rewrite <- Ht.
Qed.

Lemma slice_to_all (n : nat) (s : string) :
  String.length s <= n -> slice_to n s = s.
Proof.
  revert s. induction n as [|n IH]; intros [|c t]; simpl; intros Hn;
    try reflexivity; try lia.
  rewrite IH; [reflexivity | lia].
Qed.

(** ** Markup stripping *)

Lemma match_tag_span (body rest : string) :
  body <> "" -> contains gt_sign body = false ->
  match_tag (String lt_sign (body +:+ String gt_sign rest)) = Some body.
Proof.
  intros Hne Hgt. unfold match_tag. rewrite Ascii.eqb_refl.
  rewrite (split_first_append _ _ _ Hgt). destruct body; [congruence | reflexivity].
Qed.

Lemma sub_tags_skip (u v : string) :
  sub_tags (String.length u) (u +:+ v) = sub_tags 0 v.
Proof.
  induction u as [|c u IH]; simpl; [|exact IH].
  destruct v; reflexivity.
Qed.

Lemma sub_tags_no_lt (pre rest : string) :
  contains lt_sign pre = false ->
  sub_tags 0 (pre +:+ rest) = pre +:+ sub_tags 0 rest.
Proof.
  induction pre as [|c pre IH]; simpl; intros Hpre; [reflexivity|].
  apply orb_false_iff in Hpre as [Hc Hpre].
  rewrite Hc. now rewrite (IH Hpre).
Qed.

Lemma sub_tags_sublist (k : nat) (s : string) :
  sublist (chars (sub_tags k s)) (chars s).
Proof.
  revert k. induction s as [|c t IH]; intros k; [destruct k; constructor|].
  destruct k as [|k].
  - change (sub_tags 0 (String c t))
      with (match match_tag (String c t) with
            | Some body => sub_tags (S (String.length body)) t
            | None => String c (sub_tags 0 t)
            end).
    destruct (match_tag (String c t)); simpl.
    + apply sublist_cons, IH.
    + apply sublist_skip, IH.
  - simpl. apply sublist_cons, IH.
Qed.

Lemma contains_chars (c : ascii) (s : string) :
  contains c s = true <-> c ∈ chars s.
Proof.
  induction s as [|d t IH]; simpl.
  - split; [discriminate | intros Hin; inversion Hin].
  - rewrite orb_true_iff, elem_of_cons, IH, Ascii.eqb_eq. intuition congruence.
Qed.

Lemma sub_tags_contains (c : ascii) (k : nat) (s : string) :
  contains c s = false -> contains c (sub_tags k s) = false.
Proof.
  intros Hs. destruct (contains c (sub_tags k s)) eqn:Hc; [|reflexivity].
  apply contains_chars in Hc.
  assert (c ∈ chars s) as Hin.
  { eapply elem_of_submseteq; [exact Hc|].
    apply sublist_submseteq, sub_tags_sublist. }
  apply contains_chars in Hin. congruence.
Qed.

Lemma sub_tags_unfold (c : ascii) (t : string) :
  sub_tags 0 (String c t) =
  match match_tag (String c t) with
  | Some body => sub_tags (S (String.length body)) t
  | None => String c (sub_tags 0 t)
  end.
Proof. reflexivity. Qed.

Lemma match_tag_not_lt (c : ascii) (t : string) :
  Ascii.eqb c lt_sign = false -> match_tag (String c t) = None.
Proof. intros Hc. unfold match_tag. now rewrite Hc. Qed.

Lemma sub_tags_tagfree (k : nat) (s : string) : tagfree (sub_tags k s).
Proof.
  revert k. induction s as [|c t IH]; intros k.
  - destruct k; simpl; auto.
  - destruct k as [|k]; [|exact (IH k)].
    rewrite sub_tags_unfold.
    destruct (match_tag (String c t)) as [body|] eqn:Hm; [apply IH|].
    split; [|apply IH].
    destruct (Ascii.eqb c lt_sign) eqn:Hc; [|now apply match_tag_not_lt].
    unfold match_tag in Hm |- *. rewrite Hc in Hm |- *.
    destruct (split_first gt_sign t) as [[u v]|] eqn:Hsp.
    + destruct u as [|b u]; [|discriminate].
      apply split_first_some in Hsp as [-> _].
      rewrite append_nil_l, sub_tags_unfold, match_tag_not_lt by reflexivity.
      reflexivity.
    + apply split_first_none in Hsp.
      apply (sub_tags_contains _ 0) in Hsp. apply split_first_none in Hsp.
      now rewrite Hsp.
Qed.

Lemma tagfree_suffix (u w : string) : tagfree (u +:+ w) -> match_tag w = None.
Proof.
  induction u as [|c u IH]; simpl.
  - destruct w; intros [Hm _]; exact Hm.
  - intros [_ Ht]. auto.
Qed.

(** ** Quoted-list extraction *)

Lemma findall_quoted_skip (u v : string) :
  findall_quoted (String.length u) (u +:+ v) = findall_quoted 0 v.
Proof.
  induction u as [|c u IH]; simpl; [|exact IH].
  destruct v; reflexivity.
Qed.

Lemma findall_quoted_no_quote (pre rest : string) :
  contains quote pre = false ->
  findall_quoted 0 (pre +:+ rest) = findall_quoted 0 rest.
Proof.
  induction pre as [|c pre IH]; simpl; intros Hpre; [reflexivity|].
  apply orb_false_iff in Hpre as [Hc Hpre].
  rewrite Hc. now apply IH.
Qed.

Lemma findall_quoted_item (item rest : string) :
  contains quote item = false ->
  findall_quoted 0 (String quote (item +:+ String quote rest))
  = item :: findall_quoted 0 rest.
Proof.
  intros Hitem.
  change (findall_quoted 0 (String quote (item +:+ String quote rest)))
    with (match match_quoted (String quote (item +:+ String quote rest)) with
          | Some it =>
              it :: findall_quoted (S (String.length it)) (item +:+ String quote rest)
          | None => findall_quoted 0 (item +:+ String quote rest)
          end).
  unfold match_quoted. rewrite Ascii.eqb_refl, (split_first_append _ _ _ Hitem).
  f_equal.
  replace (item +:+ String quote rest) with ((item +:+ String quote "") +:+ rest)
    by (rewrite append_assoc; reflexivity).
  replace (S (String.length item)) with (String.length (item +:+ String quote ""))
    by (rewrite length_append; simpl; lia).
  apply findall_quoted_skip.
Qed.


(** C8. Quoted-list extraction returns, in order, every run enclosed in
    single quotes: a text made of quote-free fillers and quoted, quote-free
    items parses to exactly those items; there is no escaping (a backslash
    before a quote does not protect it); ['a', 'b', 'c'] parses to
    [a; b; c], and a text without quoted items parses to the empty list. *)
Theorem parse_quoted_list_extracts :
  (forall items tail,
      Forall (fun fi => contains quote fi.1 = false /\ contains quote fi.2 = false)
        items ->
      contains quote tail = false ->
      parse_quoted_list (quoted_text items tail) = map snd items)
  /\ (forall text, contains quote text = false -> parse_quoted_list text = [])
  /\ parse_quoted_list "'a', 'b', 'c'" = ["a"; "b"; "c"]
  /\ parse_quoted_list "" = []
  /\ parse_quoted_list "[]" = []
  /\ parse_quoted_list "'it\'s'" = ["it\"].
Proof.
  assert (Hnone : forall text, contains quote text = false ->
                               parse_quoted_list text = []).
  { intros text Htext. unfold parse_quoted_list.
    rewrite <- (append_empty_r text). now rewrite findall_quoted_no_quote. }
  split; [|split; [exact Hnone | repeat split; reflexivity]].
  intros items tail Hitems Htail. unfold parse_quoted_list.
  induction Hitems as [|[filler item] items [Hf Hi] _ IH]; simpl.
  - now apply Hnone.
  - rewrite findall_quoted_no_quote by exact Hf.
    rewrite findall_quoted_item by exact Hi. now rewrite IH.
Qed.

Lemma parse_quoted_list_extracts_witness :
  parse_quoted_list (quoted_text [("[", "q1"); (", ", "q2")] "]") = ["q1"; "q2"]
  /\ parse_quoted_list "no items" = [].
Proof.
  split.
  - apply (proj1 parse_quoted_list_extracts [("[", "q1"); (", ", "q2")] "]").
    + repeat constructor.
    + reflexivity.
  - apply (proj1 (proj2 parse_quoted_list_extracts)). reflexivity.
Defined.

(** C9. Markup stripping deletes every tag span and keeps the rest of the
    text in order: the result is a subsequence of the input, no tag span is
    left in it, a tag span after tag-free text is dropped and the text
    around it kept, text without a less-than sign (entities included) comes
    back unchanged, and [<b>balloon</b> inflation] gives
    [balloon inflation]. *)
Theorem clean_html_strips_tags :
  (forall text, sublist (chars (clean_html text)) (chars text))
  /\ (forall text u t v, clean_html text = u +:+ t +:+ v -> ~ tag_span t)
  /\ (forall pre body rest,
         contains lt_sign pre = false ->
         body <> "" -> contains gt_sign body = false ->
         clean_html (pre +:+ String lt_sign (body +:+ String gt_sign rest))
         = pre +:+ clean_html rest)
  /\ (forall text, contains lt_sign text = false -> clean_html text = text)
  /\ clean_html "&lt;b&gt; &amp; co" = "&lt;b&gt; &amp; co"
  /\ clean_html "<b>balloon</b> inflation" = "balloon inflation".
Proof.
  unfold clean_html. repeat split; try reflexivity.
  - intros text. apply sub_tags_sublist.
  - intros text u t v Hout (body & -> & Hne & Hgt).
    pose proof (sub_tags_tagfree 0 text) as Hfree. rewrite Hout in Hfree.
    apply tagfree_suffix in Hfree.
    change (String lt_sign (body +:+ String gt_sign "") +:+ v)
      with (String lt_sign ((body +:+ String gt_sign "") +:+ v)) in Hfree.
    rewrite append_assoc in Hfree.
    change (String gt_sign "" +:+ v) with (String gt_sign v) in Hfree.
    rewrite match_tag_span in Hfree by assumption. discriminate.
  - intros pre body rest Hpre Hne Hgt.
    rewrite sub_tags_no_lt by exact Hpre. f_equal.
    rewrite sub_tags_unfold, match_tag_span by assumption.
    replace (body +:+ String gt_sign rest) with ((body +:+ String gt_sign "") +:+ rest)
      by (rewrite append_assoc; reflexivity).
    replace (S (String.length body)) with (String.length (body +:+ String gt_sign ""))
      by (rewrite length_append; simpl; lia).
    apply sub_tags_skip.
  - intros text Htext. rewrite <- (append_empty_r text) at 1.
    rewrite sub_tags_no_lt by exact Htext. simpl. apply append_empty_r.
Qed.

Lemma clean_html_strips_tags_witness :
  clean_html "Inflate <i>slowly</i>" = "Inflate " +:+ clean_html "slowly</i>"
  /\ clean_html "5 &gt; 3" = "5 &gt; 3"
  /\ ~ tag_span "<>".
Proof.
  split; [|split].
  - apply (proj1 (proj2 (proj2 clean_html_strips_tags)) "Inflate " "i" "slowly</i>");
      [reflexivity | discriminate | reflexivity].
  - apply (proj1 (proj2 (proj2 (proj2 clean_html_strips_tags)))). reflexivity.
  - apply (proj1 (proj2 clean_html_strips_tags) "x<>y" "x" "<>" "y"). reflexivity.
Defined.

(** ** Runs: loops and truncation *)

Lemma truncate_if_needed_eq (text : string) (max_chars : nat) (w : nworld) :
  truncate_if_needed text max_chars w
  = (Ok (clip max_chars text), log_truncation text max_chars w).
Proof.
  unfold truncate_if_needed, clip, log_truncation.
  destruct (String.length text <=? max_chars)%nat; reflexivity.
Qed.

Lemma length_clip (max_chars : nat) (text : string) :
  String.length (clip max_chars text) <= max_chars.
Proof.
  unfold clip. destruct (Nat.leb_spec (String.length text) max_chars) as [Hle|Hgt].
  - exact Hle.
  - rewrite length_slice_to; lia.
Qed.

Lemma nfiles_log_truncation (text : string) (max_chars : nat) (w : nworld) :
  nfiles (log_truncation text max_chars w) = nfiles w.
Proof. unfold log_truncation. destruct (_ <=? _)%nat; reflexivity. Qed.

Section ForEach.

Context {W A : Type}.

Lemma for_each_collect {B : Type} (body : A -> list B -> M W (list B))
    (P : A -> list B -> Prop) :
  (forall x acc w r w', body x acc w = (Ok r, w') ->
                        exists l, r = (acc ++ l)%list /\ P x l) ->
  forall xs acc w r w',
    for_each xs body acc w = (Ok r, w') ->
    exists ls, r = (acc ++ concat ls)%list /\ Forall2 P xs ls.
Proof.
  intros Hbody xs. induction xs as [|x xs IH]; intros acc w r w' Hrun.
  - inversion Hrun; subst. exists []. split; [now rewrite app_nil_r | constructor].
  - simpl in Hrun. unfold bind in Hrun.
    destruct (body x acc w) as [[acc1|e] w1] eqn:Hx; [|discriminate].
    destruct (Hbody _ _ _ _ _ Hx) as (l & -> & Hl).
    destruct (IH _ _ _ _ Hrun) as (ls & -> & Hls).
    exists (l :: ls). split; [now rewrite <- app_assoc | now constructor].
Qed.

Lemma for_each_proj {S T : Type} (f : W -> T) (body : A -> S -> M W S) :
  (forall x acc w, f (body x acc w).2 = f w) ->
  forall xs acc w, f (for_each xs body acc w).2 = f w.
Proof.
  intros Hbody xs. induction xs as [|x xs IH]; intros acc w; [reflexivity|].
  simpl. unfold bind. specialize (Hbody x acc w).
  destruct (body x acc w) as [[acc1|e] w1]; simpl in *.
  - now rewrite IH.
  - exact Hbody.
Qed.

Lemma for_each_total {S : Type} (body : A -> S -> M W S) (xs : list A) :
  Forall (fun x => forall acc w, exists r w', body x acc w = (Ok r, w')) xs ->
  forall acc w, exists r w', for_each xs body acc w = (Ok r, w').
Proof.
  induction 1 as [|x xs Hx _ IH]; intros acc w; simpl.
  - now exists acc, w.
  - unfold bind. destruct (Hx acc w) as (r & w1 & ->). apply IH.
Qed.

(** A loop whose turns can only return or raise [e0], and which has a turn
    that must raise, raises [e0]. *)
Lemma for_each_must_raise {S : Type} (body : A -> S -> M W S) (e0 : exn)
    (bad : A -> Prop) (xs : list A) :
  (forall x acc w,
      (exists r w', body x acc w = (Ok r, w'))
      \/ (exists w', body x acc w = (Raise e0, w'))) ->
  (forall x, bad x -> forall acc w, exists w', body x acc w = (Raise e0, w')) ->
  Exists bad xs ->
  forall acc w, exists w', for_each xs body acc w = (Raise e0, w').
Proof.
  intros Hbody Hbad. induction 1 as [x xs Hx|x xs _ IH]; intros acc w; simpl.
  - unfold bind. destruct (Hbad x Hx acc w) as (w' & ->). now exists w'.
  - unfold bind. destruct (Hbody x acc w) as [(r & w' & ->)|(w' & ->)].
    + apply IH.
    + now exists w'.
Qed.

End ForEach.

(** ** The records of a run *)

Section Bodies.

Variable module_fields : gmap string scalar.
Variables course_id module_name : scalar.

Lemma competency_body_eq (g : McqGroup) (acc : list Rec.t) (w : nworld) :
  competency_body module_fields course_id module_name g acc w =
  let w' :=
    log_truncation
      (competency_text (competency g)
         (parse_quoted_list (question_id_competency_definition (question g))))
      MAX_CHARS w in
  match module_fields !! "module_domain" with
  | Some d => (Ok (acc ++ [competency_record course_id module_name d g])%list, w')
  | None => (Raise (KeyError "module_domain"), w')
  end.
Proof.
  unfold competency_body, bind. rewrite truncate_if_needed_eq.
  unfold getitem. destruct (module_fields !! "module_domain"); reflexivity.
Qed.

Lemma checklist_embed_text_eq (c : Checklist) (w : nworld) :
  checklist_embed_text c w = (Ok (checklist_rendered c), log_compression c w).
Proof.
  unfold checklist_embed_text, checklist_rendered, log_compression.
  destruct (MAX_CHARS <? _)%nat; reflexivity.
Qed.

Lemma checklist_body_eq (c : Checklist) (acc : list Rec.t) (w : nworld) :
  checklist_body module_fields course_id module_name c acc w =
  let w' := log_truncation (checklist_rendered c) MAX_CHARS (log_compression c w) in
  match module_fields !! "module_domain" with
  | Some d => (Ok (acc ++ [checklist_record course_id module_name d c])%list, w')
  | None => (Raise (KeyError "module_domain"), w')
  end.
Proof.
  unfold checklist_body, bind.
  rewrite checklist_embed_text_eq, truncate_if_needed_eq.
  unfold getitem. destruct (module_fields !! "module_domain"); reflexivity.
Qed.

Lemma mcq_body_ok (comp : Competency) (qts cos los aos : list string)
    (i : nat) (qid qt co lo ao : string) (d : scalar)
    (acc : list Rec.t) (w : nworld) :
  qts !! i = Some qt -> cos !! i = Some co -> los !! i = Some lo ->
  aos !! i = Some ao -> module_fields !! "module_domain" = Some d ->
  mcq_body module_fields course_id module_name comp qts cos los aos (i, qid) acc w
  = (Ok (acc ++ [mcq_record course_id module_name d comp qid qt co lo ao])%list,
     log_truncation (mcq_text comp qt co lo ao) MAX_CHARS w).
Proof.
  intros Hqt Hco Hlo Hao Hd. unfold mcq_body, bind, lift, index. simpl.
  rewrite Hqt, Hco, Hlo, Hao. simpl. rewrite truncate_if_needed_eq.
  unfold getitem. rewrite Hd. reflexivity.
Qed.

Lemma mcq_body_index_error (comp : Competency) (qts cos los aos : list string)
    (i : nat) (qid : string) (acc : list Rec.t) (w : nworld) :
  qts !! i = None \/ cos !! i = None \/ los !! i = None \/ aos !! i = None ->
  mcq_body module_fields course_id module_name comp qts cos los aos (i, qid) acc w
  = (Raise IndexError, w).
Proof.
  intros Hnone. unfold mcq_body, bind, lift, index. simpl.
  destruct (qts !! i); [|reflexivity].
  destruct (cos !! i); [|reflexivity].
  destruct (los !! i); [|reflexivity].
  destruct (aos !! i); [|reflexivity].
  destruct Hnone as [?|[?|[?|?]]]; discriminate.
Qed.

End Bodies.

Lemma enumerate_from_length {A} (i : nat) (l : list A) :
  length (enumerate_from i l) = length l.
Proof.
  revert i. induction l as [|x l IH]; intros i; simpl; [|rewrite IH]; reflexivity.
Qed.

Lemma enumerate_from_snd {A} (i : nat) (l : list A) :
  map snd (enumerate_from i l) = l.
Proof.
  revert i. induction l as [|x l IH]; intros i; simpl; [|rewrite IH]; reflexivity.
Qed.

Lemma enumerate_from_bound {A} (i : nat) (l : list A) :
  Forall (fun iq => i <= iq.1 < i + length l) (enumerate_from i l).
Proof.
  revert i. induction l as [|x l IH]; intros i; simpl; constructor.
  - simpl. lia.
  - eapply Forall_impl; [apply IH|]. simpl. intros [j y]; simpl. lia.
Qed.

Lemma enumerate_from_last {A} (i : nat) (l : list A) (m : nat) :
  m < i + length l -> 0 < length l ->
  Exists (fun iq => m <= iq.1) (enumerate_from i l).
Proof.
  revert i. induction l as [|x l IH]; intros i; simpl; intros Hm Hl; [lia|].
  destruct (Nat.le_gt_cases m i) as [Hle|Hgt].
  - now apply Exists_cons_hd.
  - apply Exists_cons_tl, IH; lia.
Qed.

Lemma Forall2_concat_singletons {A B} (Q : A -> B -> Prop) (xs : list A)
    (ls : list (list B)) :
  Forall2 (fun x l => exists y, l = [y] /\ Q x y) xs ls ->
  Forall2 Q xs (concat ls).
Proof.
  induction 1 as [|x l xs ls (y & -> & Hy) _ IH]; simpl; now constructor.
Qed.

Lemma Forall2_map_l_snd {A B C} (Q : B -> C -> Prop) (xs : list (A * B))
    (ys : list C) :
  Forall2 (fun x y => Q x.2 y) xs ys -> Forall2 Q (map snd xs) ys.
Proof. induction 1; simpl; now constructor. Qed.

Section McqLoop.

Variable module_fields : gmap string scalar.
Variables course_id module_name : scalar.

Lemma mcq_body_ok_inv (g : McqGroup) (iq : nat * string)
    (acc r : list Rec.t) (w w' : nworld) :
  let q := question g in
  mcq_body module_fields course_id module_name (competency g)
    (parse_quoted_list (question_texts q))
    (parse_quoted_list (correct_options_texts q))
    (parse_quoted_list (question_id_competency_definition q))
    (parse_quoted_list (options_texts q)) iq acc w = (Ok r, w') ->
  exists l,
    r = (acc ++ l)%list
    /\ exists y,
         l = [y] /\ mcq_record_of module_fields course_id module_name g iq.2 y.
Proof.
  intros q. destruct iq as [i qid].
  destruct (parse_quoted_list (question_texts q) !! i) as [qt|] eqn:Hqt;
    [|rewrite mcq_body_index_error by tauto; discriminate].
  destruct (parse_quoted_list (correct_options_texts q) !! i) as [co|] eqn:Hco;
    [|rewrite mcq_body_index_error by tauto; discriminate].
  destruct (parse_quoted_list (question_id_competency_definition q) !! i)
    as [lo|] eqn:Hlo; [|rewrite mcq_body_index_error by tauto; discriminate].
  destruct (parse_quoted_list (options_texts q) !! i) as [ao|] eqn:Hao;
    [|rewrite mcq_body_index_error by tauto; discriminate].
  destruct (module_fields !! "module_domain") as [d|] eqn:Hd.
  - rewrite (mcq_body_ok _ _ _ _ _ _ _ _ _ _ _ _ _ _ d _ _ Hqt Hco Hlo Hao Hd).
    intros Hrun. inversion Hrun; subst.
    eexists. split; [reflexivity|]. eexists. split; [reflexivity|].
    exists d, qt, co, lo, ao. now split.
  - unfold mcq_body, bind, lift, index. simpl.
    rewrite Hqt, Hco, Hlo, Hao. simpl. rewrite truncate_if_needed_eq.
    unfold getitem. rewrite Hd. discriminate.
Qed.

Lemma mcq_group_body_ok_inv (g : McqGroup) (acc r : list Rec.t) (w w' : nworld) :
  mcq_group_body module_fields course_id module_name g acc w = (Ok r, w') ->
  exists l, r = (acc ++ l)%list
            /\ Forall2 (mcq_record_of module_fields course_id module_name g)
                 (parse_quoted_list (question_ids (question g))) l.
Proof.
  unfold mcq_group_body. intros Hrun.
  eapply for_each_collect in Hrun; [|intros; eapply mcq_body_ok_inv; eassumption].
  destruct Hrun as (ls & -> & Hls). exists (concat ls). split; [reflexivity|].
  apply Forall2_concat_singletons in Hls.
  apply Forall2_map_l_snd in Hls. unfold enumerate in Hls.
  now rewrite enumerate_from_snd in Hls.
Qed.

(** With [module_domain] present, a turn of the inner loop returns when its
    index is within all four lists and raises [IndexError] otherwise. *)
Lemma mcq_body_dichotomy (g : McqGroup) (d : scalar) (iq : nat * string)
    (acc : list Rec.t) (w : nworld) :
  module_fields !! "module_domain" = Some d ->
  let q := question g in
  let body :=
    mcq_body module_fields course_id module_name (competency g)
      (parse_quoted_list (question_texts q))
      (parse_quoted_list (correct_options_texts q))
      (parse_quoted_list (question_id_competency_definition q))
      (parse_quoted_list (options_texts q)) in
  (iq.1 < parallel_len q -> exists r w', body iq acc w = (Ok r, w'))
  /\ (parallel_len q <= iq.1 -> body iq acc w = (Raise IndexError, w)).
Proof.
  intros Hd q body. destruct iq as [i qid]. unfold parallel_len. simpl. split.
  - intros Hi.
    destruct (lookup_lt_is_Some_2 (parse_quoted_list (question_texts q)) i)
      as [qt Hqt]; [lia|].
    destruct (lookup_lt_is_Some_2 (parse_quoted_list (correct_options_texts q)) i)
      as [co Hco]; [lia|].
    destruct (lookup_lt_is_Some_2
                (parse_quoted_list (question_id_competency_definition q)) i)
      as [lo Hlo]; [lia|].
    destruct (lookup_lt_is_Some_2 (parse_quoted_list (options_texts q)) i)
      as [ao Hao]; [lia|].
    unfold body.
    rewrite (mcq_body_ok _ _ _ _ _ _ _ _ _ _ _ _ _ _ d _ _ Hqt Hco Hlo Hao Hd).
    eauto.
  - intros Hi. apply mcq_body_index_error.
    destruct (Nat.le_gt_cases (length (parse_quoted_list (question_texts q))) i);
      [left; now apply lookup_ge_None_2|].
    destruct (Nat.le_gt_cases (length (parse_quoted_list (correct_options_texts q))) i);
      [right; left; now apply lookup_ge_None_2|].
    destruct (Nat.le_gt_cases
                (length (parse_quoted_list (question_id_competency_definition q))) i);
      [right; right; left; now apply lookup_ge_None_2|].
    right; right; right. apply lookup_ge_None_2. lia.
Qed.

(** A group whose parallel lists cover its ids is rendered. *)
Lemma mcq_group_body_total (g : McqGroup) (d : scalar) (acc : list Rec.t)
    (w : nworld) :
  module_fields !! "module_domain" = Some d ->
  question_count g <= parallel_len (question g) ->
  exists r w', mcq_group_body module_fields course_id module_name g acc w = (Ok r, w').
Proof.
  intros Hd Hlen. unfold mcq_group_body. apply for_each_total.
  eapply Forall_impl; [apply enumerate_from_bound|].
  intros iq Hiq acc' w0. eapply mcq_body_dichotomy; [exact Hd|].
  unfold question_count in Hlen. simpl in Hiq. lia.
Qed.

(** A group with more ids than one of its parallel lists has entries raises
    [IndexError]. *)
Lemma mcq_group_body_index_error (g : McqGroup) (d : scalar) (acc : list Rec.t)
    (w : nworld) :
  module_fields !! "module_domain" = Some d ->
  parallel_len (question g) < question_count g ->
  exists w', mcq_group_body module_fields course_id module_name g acc w
             = (Raise IndexError, w').
Proof.
  intros Hd Hlen. unfold mcq_group_body.
  apply for_each_must_raise with (bad := fun iq => parallel_len (question g) <= iq.1).
  - intros iq acc' w0.
    destruct (mcq_body_dichotomy g d iq acc' w0 Hd) as [Hok Hbad].
    destruct (Nat.lt_ge_cases iq.1 (parallel_len (question g))) as [Hlt|Hge].
    + left. now apply Hok.
    + right. exists w0. now apply Hbad.
  - intros iq Hiq acc' w0. exists w0. now apply (mcq_body_dichotomy g d iq acc' w0 Hd).
  - unfold question_count in Hlen. apply enumerate_from_last; simpl; lia.
Qed.

End McqLoop.

(** ** The Normalizer as a whole *)

Section Loops.

Variable module_fields : gmap string scalar.
Variables course_id module_name : scalar.

Lemma competency_loop_nfiles (groups : list McqGroup) (acc : list Rec.t) (w : nworld) :
  nfiles (for_each groups (competency_body module_fields course_id module_name) acc w).2
  = nfiles w.
Proof.
  apply (for_each_proj nfiles). intros g acc' w0. rewrite competency_body_eq.
  simpl. destruct (module_fields !! "module_domain"); simpl;
    apply nfiles_log_truncation.
Qed.

Lemma mcq_loop_nfiles (groups : list McqGroup) (acc : list Rec.t) (w : nworld) :
  nfiles (for_each groups (mcq_group_body module_fields course_id module_name) acc w).2
  = nfiles w.
Proof.
  apply (for_each_proj nfiles). intros g acc' w0. unfold mcq_group_body.
  apply (for_each_proj nfiles). intros iq acc'' w1.
  unfold mcq_body, bind, lift, index.
  repeat (match goal with
          | |- context [match ?l !! ?i with _ => _ end] => destruct (l !! i)
          end; simpl; try reflexivity).
  rewrite truncate_if_needed_eq. unfold getitem.
  destruct (module_fields !! "module_domain"); simpl; apply nfiles_log_truncation.
Qed.

Lemma nfiles_log_compression (c : Checklist) (w : nworld) :
  nfiles (log_compression c w) = nfiles w.
Proof. unfold log_compression. destruct (_ <? _)%nat; reflexivity. Qed.

Lemma checklist_loop_nfiles (cls : list Checklist) (acc : list Rec.t) (w : nworld) :
  nfiles (for_each cls (checklist_body module_fields course_id module_name) acc w).2
  = nfiles w.
Proof.
  apply (for_each_proj nfiles). intros c acc' w0. rewrite checklist_body_eq.
  simpl. destruct (module_fields !! "module_domain"); simpl;
    now rewrite nfiles_log_truncation, nfiles_log_compression.
Qed.

Lemma competency_loop_ok_inv (groups : list McqGroup) (r : list Rec.t)
    (w w' : nworld) :
  for_each groups (competency_body module_fields course_id module_name) [] w
  = (Ok r, w') ->
  Forall2 (competency_record_of module_fields course_id module_name) groups r.
Proof.
  intros Hrun.
  eapply for_each_collect
    with (P := fun g l =>
                 exists y,
                   l = [y]
                   /\ competency_record_of module_fields course_id module_name g y)
    in Hrun.
  - destruct Hrun as (ls & -> & Hls). now apply Forall2_concat_singletons.
  - intros g acc w0 r0 w0'. rewrite competency_body_eq. simpl.
    destruct (module_fields !! "module_domain") as [d|] eqn:Hd; [|discriminate].
    intros Hb. inversion Hb; subst. eexists. split; [reflexivity|].
    eexists. split; [reflexivity|]. now exists d.
Qed.

Lemma checklist_loop_ok_inv (cls : list Checklist) (r : list Rec.t)
    (w w' : nworld) :
  for_each cls (checklist_body module_fields course_id module_name) [] w
  = (Ok r, w') ->
  Forall2 (checklist_record_of module_fields course_id module_name) cls r.
Proof.
  intros Hrun.
  eapply for_each_collect
    with (P := fun c l =>
                 exists y,
                   l = [y]
                   /\ checklist_record_of module_fields course_id module_name c y)
    in Hrun.
  - destruct Hrun as (ls & -> & Hls). now apply Forall2_concat_singletons.
  - intros c acc w0 r0 w0'. rewrite checklist_body_eq. simpl.
    destruct (module_fields !! "module_domain") as [d|] eqn:Hd; [|discriminate].
    intros Hb. inversion Hb; subst. eexists. split; [reflexivity|].
    eexists. split; [reflexivity|]. now exists d.
Qed.

Lemma mcq_loop_ok_inv (groups : list McqGroup) (r : list Rec.t) (w w' : nworld) :
  for_each groups (mcq_group_body module_fields course_id module_name) [] w
  = (Ok r, w') ->
  exists ls, r = concat ls
             /\ Forall2 (fun g l =>
                           Forall2 (mcq_record_of module_fields course_id module_name g)
                             (parse_quoted_list (question_ids (question g))) l)
                  groups ls.
Proof.
  intros Hrun. eapply for_each_collect in Hrun.
  - destruct Hrun as (ls & -> & Hls). exists ls. split; [reflexivity | exact Hls].
  - intros g acc w0 r0 w0' Hb. now apply mcq_group_body_ok_inv in Hb.
Qed.

Lemma render_and_save_raise (groups : list McqGroup) (cls : option (list Checklist))
    (w w' : nworld) (e : exn) :
  render_and_save module_fields course_id module_name groups cls w = (Raise e, w') ->
  nfiles w' = nfiles w.
Proof.
  unfold render_and_save, bind. intros Hrun.
  pose proof (competency_loop_nfiles groups [] w) as H1.
  destruct (for_each groups (competency_body _ _ _) [] w) as [[cs|e1] w1];
    simpl in H1; [|inversion Hrun; now subst].
  pose proof (mcq_loop_nfiles groups [] w1) as H2.
  destruct (for_each groups (mcq_group_body _ _ _) [] w1) as [[ms|e2] w2];
    simpl in H2; [|inversion Hrun; subst; congruence].
  destruct cls as [cls|].
  - pose proof (checklist_loop_nfiles cls [] w2) as H3.
    destruct (for_each cls (checklist_body _ _ _) [] w2) as [[ks|e3] w3];
      simpl in H3; [discriminate|inversion Hrun; subst; congruence].
  - discriminate.
Qed.

Lemma render_and_save_ok (groups : list McqGroup) (cls : option (list Checklist))
    (w w' : nworld) (b : ModuleBundle) :
  render_and_save module_fields course_id module_name groups cls w = (Ok b, w') ->
  module_info b = module_fields
  /\ Forall2 (competency_record_of module_fields course_id module_name)
       groups (competencies b)
  /\ (exists ls, mcqs b = concat ls
                 /\ Forall2 (fun g l =>
                               Forall2 (mcq_record_of module_fields course_id module_name g)
                                 (parse_quoted_list (question_ids (question g))) l)
                      groups ls)
  /\ Forall2 (checklist_record_of module_fields course_id module_name)
       (default [] cls) (checklists b)
  /\ total_vectors b
     = length (competencies b) + length (mcqs b) + length (checklists b)
  /\ nfiles w' = <[output_file course_id := b]> (nfiles w).
Proof.
  unfold render_and_save, bind. intros Hrun.
  pose proof (competency_loop_nfiles groups [] w) as H1.
  destruct (for_each groups (competency_body _ _ _) [] w) as [[cs|e1] w1] eqn:Hc;
    simpl in H1; [|discriminate].
  pose proof (mcq_loop_nfiles groups [] w1) as H2.
  destruct (for_each groups (mcq_group_body _ _ _) [] w1) as [[ms|e2] w2] eqn:Hm;
    simpl in H2; [|discriminate].
  apply competency_loop_ok_inv in Hc. apply mcq_loop_ok_inv in Hm.
  assert (exists ks w3,
             Forall2 (checklist_record_of module_fields course_id module_name)
               (default [] cls) ks
             /\ nfiles w3 = nfiles w
             /\ (Ok b, w') =
                (Ok {| module_info := module_fields; competencies := cs; mcqs := ms;
                       checklists := ks;
                       total_vectors := length cs + length ms + length ks |},
                 {| nlog := nlog w3;
                    nfiles := <[output_file course_id :=
                                  {| module_info := module_fields; competencies := cs;
                                     mcqs := ms; checklists := ks;
                                     total_vectors := length cs + length ms + length ks |}]>
                                (nfiles w3) |}))
    as (ks & w3 & Hk & H3 & Heq).
  { destruct cls as [cls|].
    - pose proof (checklist_loop_nfiles cls [] w2) as H3.
      destruct (for_each cls (checklist_body _ _ _) [] w2) as [[ks|e3] w3] eqn:Hk;
        simpl in H3; [|discriminate].
      apply checklist_loop_ok_inv in Hk. exists ks, w3.
      repeat split; [exact Hk | congruence | now rewrite <- Hrun].
    - exists [], w2. repeat split; [constructor | congruence | now rewrite <- Hrun]. }
  inversion Heq; subst; simpl. rewrite H3. repeat split; assumption.
Qed.

End Loops.

Lemma preprocess_unfold (raw : RawModule) (rest : list RawModule)
    (mf : gmap string scalar) (cid name : scalar) (groups : list McqGroup) :
  key_module_field raw = Some mf ->
  mf !! "course_id" = Some cid -> mf !! "competency_name" = Some name ->
  question_type_mcq raw = Some groups ->
  forall w,
    preprocess (raw :: rest) w
    = render_and_save mf cid name groups (question_type_checklist raw) w.
Proof.
  intros Hmf Hcid Hname Hgroups w.
  unfold preprocess, render_and_save, bind, lift, index, getkey, getitem. simpl.
  rewrite Hmf. simpl. rewrite Hcid, Hname, Hgroups. reflexivity.
Qed.

(** How a run that returns got there. *)
Lemma preprocess_ok_inv (raw_data : list RawModule) (w w' : nworld)
    (b : ModuleBundle) :
  preprocess raw_data w = (Ok b, w') ->
  exists raw rest mf cid name groups,
    raw_data = raw :: rest
    /\ key_module_field raw = Some mf
    /\ mf !! "course_id" = Some cid /\ mf !! "competency_name" = Some name
    /\ question_type_mcq raw = Some groups
    /\ render_and_save mf cid name groups (question_type_checklist raw) w
       = (Ok b, w').
Proof.
  intros Hrun. destruct raw_data as [|raw rest]; [discriminate|].
  destruct (key_module_field raw) as [mf|] eqn:Hmf;
    [|unfold preprocess, bind, lift, index, getkey in Hrun; simpl in Hrun;
      rewrite Hmf in Hrun; discriminate].
  destruct (mf !! "course_id") as [cid|] eqn:Hcid;
    [|unfold preprocess, bind, lift, index, getkey, getitem in Hrun; simpl in Hrun;
      rewrite Hmf in Hrun; simpl in Hrun; rewrite Hcid in Hrun; discriminate].
  destruct (mf !! "competency_name") as [name|] eqn:Hname;
    [|unfold preprocess, bind, lift, index, getkey, getitem in Hrun; simpl in Hrun;
      rewrite Hmf in Hrun; simpl in Hrun; rewrite Hcid, Hname in Hrun; discriminate].
  destruct (question_type_mcq raw) as [groups|] eqn:Hgroups;
    [|unfold preprocess, bind, lift, index, getkey, getitem in Hrun; simpl in Hrun;
      rewrite Hmf in Hrun; simpl in Hrun; rewrite Hcid, Hname, Hgroups in Hrun;
      discriminate].
  rewrite (preprocess_unfold raw rest mf cid name groups) in Hrun by assumption.
  exists raw, rest, mf, cid, name, groups. repeat split; assumption.
Qed.

(** ** Record counts *)

Lemma length_concat_groups {B} (P : McqGroup -> string -> B -> Prop)
    (groups : list McqGroup) (ls : list (list B)) :
  Forall2 (fun g l => Forall2 (P g) (parse_quoted_list (question_ids (question g))) l)
    groups ls ->
  length (concat ls) = total_questions groups.
Proof.
  unfold total_questions.
  induction 1 as [|g l groups ls Hl _ IH]; simpl; [reflexivity|].
  rewrite length_app, IH. apply Forall2_length in Hl.
  unfold question_count. now rewrite Hl.
Qed.

(** C2. A bundle produced from an export with N competency groups, M
    questions over all groups and K checklist groups holds N competency
    records, M question records and K checklist records, and its
    [total_vectors] is N + M + K. *)
Theorem bundle_record_counts (raw : RawModule) (rest : list RawModule)
    (groups : list McqGroup) (w w' : nworld) (b : ModuleBundle) :
  question_type_mcq raw = Some groups ->
  preprocess (raw :: rest) w = (Ok b, w') ->
  let N := length groups in
  let M := total_questions groups in
  let K := length (default [] (question_type_checklist raw)) in
  length (competencies b) = N
  /\ length (mcqs b) = M
  /\ length (checklists b) = K
  /\ total_vectors b = N + M + K.
Proof.
  intros Hgroups Hrun.
  apply preprocess_ok_inv in Hrun
    as (raw' & rest' & mf & cid & name & groups' & Heq & _ & _ & _ & Hg' & Hrun).
  inversion Heq; subst raw' rest'. rewrite Hgroups in Hg'. inversion Hg'; subst groups'.
  apply render_and_save_ok in Hrun as (_ & Hc & (ls & Hm & Hls) & Hk & Htot & _).
  apply Forall2_length in Hc, Hk. apply length_concat_groups in Hls.
  simpl. rewrite Htot, <- Hc, <- Hk, Hm, Hls. repeat split.
Qed.

Lemma bundle_record_counts_witness :
  exists b w',
    preprocess [Example.raw] Example.world = (Ok b, w')
    /\ length (competencies b) = 1
    /\ length (mcqs b) = 3
    /\ length (checklists b) = 1
    /\ total_vectors b = 5.
Proof.
  destruct (preprocess [Example.raw] Example.world) as [[b|e] w'] eqn:Hrun;
    [|vm_compute in Hrun; discriminate].
  exists b, w'. split; [reflexivity|].
  exact (bundle_record_counts Example.raw [] [Example.group] _ _ _ eq_refl Hrun).
Defined.

(** ** Truncation *)

Lemma Forall2_Forall_right {A B} (P : A -> B -> Prop) (Q : B -> Prop)
    (xs : list A) (ys : list B) :
  (forall x y, P x y -> Q y) -> Forall2 P xs ys -> Forall Q ys.
Proof. intros HPQ. induction 1; constructor; eauto. Qed.

Lemma record_lengths (mf : gmap string scalar) (cid name : scalar)
    (groups : list McqGroup) (cls : option (list Checklist))
    (w w' : nworld) (b : ModuleBundle) :
  render_and_save mf cid name groups cls w = (Ok b, w') ->
  Forall (fun r => String.length (Rec.embedding_text r) <= MAX_CHARS)
    (competencies b ++ mcqs b ++ checklists b).
Proof.
  intros Hrun.
  apply render_and_save_ok in Hrun as (_ & Hc & (ls & -> & Hls) & Hk & _).
  rewrite !Forall_app. split; [|split].
  - eapply Forall2_Forall_right; [|exact Hc].
    intros g r (d & _ & ->). apply length_clip.
  - apply Forall_concat. eapply Forall2_Forall_right; [|exact Hls].
    intros g l Hl. eapply Forall2_Forall_right; [|exact Hl].
    intros qid r (d & qt & co & lo & ao & _ & ->). apply length_clip.
  - eapply Forall2_Forall_right; [|exact Hk].
    intros c r (d & _ & ->). apply length_clip.
Qed.

(** ** Missing identity fields *)

Lemma render_and_save_no_domain (mf : gmap string scalar) (cid name : scalar)
    (groups : list McqGroup) (cls : option (list Checklist)) (w : nworld) :
  mf !! "module_domain" = None ->
  match groups, cls with
  | _ :: _, _ => True
  | [], Some (_ :: _) => True
  | _, _ => False
  end ->
  exists w', render_and_save mf cid name groups cls w
             = (Raise (KeyError "module_domain"), w').
Proof.
  intros Hd Hrec. unfold render_and_save, bind.
  destruct groups as [|g groups].
  - destruct cls as [[|c cls]|]; try contradiction. simpl.
    unfold bind. rewrite checklist_body_eq, Hd. simpl. eauto.
  - simpl. unfold bind. rewrite competency_body_eq, Hd. simpl. eauto.
Qed.

(** The three reads of the header of the script. *)
Lemma preprocess_header (raw : RawModule) (rest : list RawModule) (w : nworld) :
  (key_module_field raw = None ->
   preprocess (raw :: rest) w = (Raise (KeyError "key_module_field"), w))
  /\ (forall mf,
         key_module_field raw = Some mf -> mf !! "course_id" = None ->
         preprocess (raw :: rest) w = (Raise (KeyError "course_id"), w))
  /\ (forall mf,
         key_module_field raw = Some mf -> is_Some (mf !! "course_id") ->
         mf !! "competency_name" = None ->
         preprocess (raw :: rest) w = (Raise (KeyError "competency_name"), w)).
Proof.
  repeat split.
  - intros Hmf. unfold preprocess, bind, lift, index, getkey. simpl.
    now rewrite Hmf.
  - intros mf Hmf Hcid. unfold preprocess, bind, lift, index, getkey, getitem.
    simpl. rewrite Hmf. simpl. now rewrite Hcid.
  - intros mf Hmf [cid Hcid] Hname.
    unfold preprocess, bind, lift, index, getkey, getitem.
    simpl. rewrite Hmf. simpl. now rewrite Hcid, Hname.
Qed.

(** A run that raises writes no file. *)
Lemma preprocess_raise_no_write (raw_data : list RawModule) (w w' : nworld)
    (e : exn) :
  preprocess raw_data w = (Raise e, w') -> nfiles w' = nfiles w.
Proof.
  destruct raw_data as [|raw rest]; [intros Hrun; inversion Hrun; now subst|].
  pose proof (preprocess_header raw rest w) as (H1 & H2 & H3).
  destruct (key_module_field raw) as [mf|] eqn:Hmf;
    [|rewrite H1 by reflexivity; intros Hrun; inversion Hrun; now subst].
  destruct (mf !! "course_id") as [cid|] eqn:Hcid;
    [|rewrite (H2 mf) by easy; intros Hrun; inversion Hrun; now subst].
  destruct (mf !! "competency_name") as [name|] eqn:Hname;
    [|rewrite (H3 mf) by eauto; intros Hrun; inversion Hrun; now subst].
  destruct (question_type_mcq raw) as [groups|] eqn:Hgroups.
  - rewrite (preprocess_unfold raw rest mf cid name groups) by assumption.
    apply render_and_save_raise.
  - unfold preprocess, bind, lift, index, getkey, getitem. simpl.
    rewrite Hmf. simpl. rewrite Hcid, Hname, Hgroups.
    intros Hrun; inversion Hrun; now subst.
Qed.

(** C4 as the spec words it fails for the domain: an identity block without
    [module_domain] and an export without groups is normalized and saved. *)
Lemma missing_domain_not_fatal :
  key_module_field Example.raw_no_domain_empty = Some Example.module_fields_no_domain
  /\ Example.module_fields_no_domain !! "module_domain" = None
  /\ exists b w',
       preprocess [Example.raw_no_domain_empty] Example.world = (Ok b, w')
       /\ nfiles w' !! output_file (SInt 341) = Some b.
Proof.
  split; [reflexivity|]. split; [reflexivity|].
  eexists _, _. split; [vm_compute; reflexivity|]. vm_compute. reflexivity.
Qed.

(** C4, amended. When the [key_module_field] block, or the course id or the
    module name in it, is absent, the run ends at once with the [KeyError]
    of that key: nothing is logged and no file is written.  When only the
    domain is absent, the run ends with a [KeyError] for it, no file
    written, as soon as there is a record to render. *)
Theorem missing_identity_aborts (raw : RawModule) (rest : list RawModule)
    (w : nworld) :
  (key_module_field raw = None ->
   preprocess (raw :: rest) w = (Raise (KeyError "key_module_field"), w))
  /\ (forall mf,
         key_module_field raw = Some mf -> mf !! "course_id" = None ->
         preprocess (raw :: rest) w = (Raise (KeyError "course_id"), w))
  /\ (forall mf,
         key_module_field raw = Some mf -> is_Some (mf !! "course_id") ->
         mf !! "competency_name" = None ->
         preprocess (raw :: rest) w = (Raise (KeyError "competency_name"), w))
  /\ (forall mf,
         key_module_field raw = Some mf ->
         is_Some (mf !! "course_id") -> is_Some (mf !! "competency_name") ->
         mf !! "module_domain" = None -> has_record raw ->
         exists w',
           preprocess (raw :: rest) w = (Raise (KeyError "module_domain"), w')
           /\ MalformedInputError (KeyError "module_domain")
           /\ nfiles w' = nfiles w).
Proof.
  destruct (preprocess_header raw rest w) as (H1 & H2 & H3).
  split; [exact H1|]. split; [exact H2|]. split; [exact H3|].
  intros mf Hmf [cid Hcid] [name Hname] Hd Hrec. unfold has_record in Hrec.
  destruct (question_type_mcq raw) as [groups|] eqn:Hgroups; [|contradiction].
  rewrite (preprocess_unfold raw rest mf cid name groups) by assumption.
  destruct (render_and_save_no_domain mf cid name groups
              (question_type_checklist raw) w Hd) as (w' & Hrun).
  { destruct groups; [|exact I].
    destruct (question_type_checklist raw) as [[|c cls]|]; easy. }
  exists w'. split; [exact Hrun|]. split; [now exists "module_domain"|].
  now apply render_and_save_raise in Hrun.
Qed.

Lemma missing_identity_aborts_witness :
  preprocess [Example.raw_no_fields] Example.world
  = (Raise (KeyError "key_module_field"), Example.world)
  /\ exists w',
       preprocess [Example.raw_no_domain] Example.world
       = (Raise (KeyError "module_domain"), w')
       /\ nfiles w' = nfiles Example.world.
Proof.
  split.
  - apply (proj1 (missing_identity_aborts Example.raw_no_fields [] Example.world)).
    reflexivity.
  - destruct (proj2 (proj2 (proj2
        (missing_identity_aborts Example.raw_no_domain [] Example.world)))
        Example.module_fields_no_domain eq_refl)
      as (w' & Hrun & _ & Hfiles).
    + exists (SInt 341). reflexivity.
    + exists (SStr "Urinary Catheterization"). reflexivity.
    + reflexivity.
    + exact I.
    + exists w'. split; assumption.
Defined.

(** ** The checklist fallback *)

Lemma checklist_short_shorter (c : Checklist) :
  String.length (checklist_short_text c) < String.length (checklist_full_text c).
Proof.
  unfold checklist_short_text, checklist_full_text.
  rewrite !length_append, !length_spaces. simpl. lia.
Qed.

(** C6 as the spec words it fails: after the fallback the text still opens
    with the [Procedural Checklist:] label. *)
Lemma checklist_fallback_keeps_label :
  MAX_CHARS < String.length (checklist_full_text Example.long_checklist)
  /\ exists r w',
       checklist_body Example.module_fields (SInt 341)
         (SStr "Urinary Catheterization") Example.long_checklist []
         Example.world = (Ok [r], w')
       /\ String.prefix "Procedural Checklist: Flush the line"
            (Rec.embedding_text r) = true.
Proof.
  split; [vm_compute; lia|].
  eexists _, _. split; [vm_compute; reflexivity|]. vm_compute. reflexivity.
Qed.

(** C6, amended. When the full rendering of a checklist is over the budget
    the Normalizer logs a warning and falls back to a shorter template: the
    [Procedural Checklist:] label and the question text, then a [Steps:]
    line in place of the competency and step-count lines, then the step
    listing; this text is strictly shorter than the full one, and the final
    truncation is applied to it.  A rendering within the budget is kept. *)
Theorem checklist_fallback_template (mf : gmap string scalar) (cid name : scalar)
    (c : Checklist) (acc : list Rec.t) (w : nworld) :
  (MAX_CHARS < String.length (checklist_full_text c) ->
   checklist_embed_text c w
   = (Ok ("Procedural Checklist: " +:+ question_text (cl_question c) +:+ nl
          +:+ spaces 28 +:+ "Steps:" +:+ nl
          +:+ spaces 28 +:+ steps_text (cl_option c)),
      {| nlog := (nlog w ++ [ChecklistTooLong])%list; nfiles := nfiles w |})
   /\ String.length (checklist_short_text c) < String.length (checklist_full_text c)
   /\ forall r w',
        checklist_body mf cid name c acc w = (Ok r, w') ->
        exists rec,
          r = (acc ++ [rec])%list
          /\ Rec.embedding_text rec = clip MAX_CHARS (checklist_short_text c)
          /\ truncate_if_needed (checklist_short_text c) MAX_CHARS
               {| nlog := (nlog w ++ [ChecklistTooLong])%list; nfiles := nfiles w |}
             = (Ok (Rec.embedding_text rec), w'))
  /\ (String.length (checklist_full_text c) <= MAX_CHARS ->
      checklist_embed_text c w = (Ok (checklist_full_text c), w)).
Proof.
  split.
  - intros Hlong.
    assert ((MAX_CHARS <? String.length (checklist_full_text c))%nat = true) as Hb
        by now apply Nat.ltb_lt.
    split; [|split].
    + rewrite checklist_embed_text_eq. unfold checklist_rendered, log_compression.
      rewrite Hb. reflexivity.
    + apply checklist_short_shorter.
    + intros r w'. rewrite checklist_body_eq. cbv zeta.
      unfold checklist_record, checklist_rendered, log_compression. rewrite Hb.
      destruct (mf !! "module_domain") as [d|]; [|discriminate].
      intros Hrun. inversion Hrun; subst. eexists. split; [reflexivity|].
      split; [reflexivity|]. apply truncate_if_needed_eq.
  - intros Hshort. rewrite checklist_embed_text_eq.
    unfold checklist_rendered, log_compression.
    destruct (Nat.ltb_spec MAX_CHARS (String.length (checklist_full_text c)));
      [lia | reflexivity].
Qed.

Lemma checklist_fallback_template_witness :
  checklist_embed_text Example.long_checklist Example.world
  = (Ok (checklist_short_text Example.long_checklist),
     {| nlog := [ChecklistTooLong]; nfiles := ∅ |})
  /\ checklist_embed_text Example.checklist Example.world
     = (Ok (checklist_full_text Example.checklist), Example.world).
Proof.
  split.
  - apply (proj1 (checklist_fallback_template Example.module_fields (SInt 341)
                    (SStr "Urinary Catheterization") Example.long_checklist []
                    Example.world)).
    vm_compute. lia.
  - apply (proj2 (checklist_fallback_template Example.module_fields (SInt 341)
                    (SStr "Urinary Catheterization") Example.checklist []
                    Example.world)).
    vm_compute. lia.
Defined.

(** ** Unequal parallel lists *)

Lemma ids_outrun_parallel_len (g : McqGroup) :
  ids_outrun g <-> parallel_len (question g) < question_count g.
Proof. unfold ids_outrun, parallel_len, question_count. simpl. lia. Qed.

Lemma competency_loop_total (mf : gmap string scalar) (cid name d : scalar)
    (groups : list McqGroup) (acc : list Rec.t) (w : nworld) :
  mf !! "module_domain" = Some d ->
  exists r w', for_each groups (competency_body mf cid name) acc w = (Ok r, w').
Proof.
  intros Hd. apply for_each_total. apply Forall_forall. intros g _ acc' w0.
  rewrite competency_body_eq, Hd. simpl. eauto.
Qed.

Lemma checklist_loop_total (mf : gmap string scalar) (cid name d : scalar)
    (cls : list Checklist) (acc : list Rec.t) (w : nworld) :
  mf !! "module_domain" = Some d ->
  exists r w', for_each cls (checklist_body mf cid name) acc w = (Ok r, w').
Proof.
  intros Hd. apply for_each_total. apply Forall_forall. intros c _ acc' w0.
  rewrite checklist_body_eq, Hd. simpl. eauto.
Qed.

(** An export with its identity fields, and whose parallel lists cover the
    ids of every group, is normalized. *)
Lemma preprocess_total (raw : RawModule) (rest : list RawModule)
    (mf : gmap string scalar) (cid name d : scalar) (groups : list McqGroup)
    (w : nworld) :
  key_module_field raw = Some mf ->
  mf !! "course_id" = Some cid -> mf !! "competency_name" = Some name ->
  mf !! "module_domain" = Some d ->
  question_type_mcq raw = Some groups ->
  Forall (fun g => question_count g <= parallel_len (question g)) groups ->
  exists b w', preprocess (raw :: rest) w = (Ok b, w').
Proof.
  intros Hmf Hcid Hname Hd Hgroups Hcover.
  rewrite (preprocess_unfold raw rest mf cid name groups) by assumption.
  unfold render_and_save, bind.
  destruct (competency_loop_total mf cid name d groups [] w Hd) as (cs & w1 & ->).
  destruct (for_each_total (mcq_group_body mf cid name) groups) with (acc := @nil Rec.t)
    (w := w1) as (ms & w2 & ->).
  { eapply Forall_impl; [exact Hcover|]. intros g Hg acc w0.
    now apply (mcq_group_body_total mf cid name g d). }
  destruct (question_type_checklist raw) as [cls|].
  - destruct (checklist_loop_total mf cid name d cls [] w2 Hd) as (ks & w3 & ->).
    simpl. eauto.
  - simpl. eauto.
Qed.

(** C7. The lengths of the four parallel lists are not checked: whenever
    the ids of some group outrun its question texts, correct options,
    learning objectives or options, and the identity fields are all there,
    the run ends with an [IndexError], which is not the fault of a missing
    key, and writes no file. *)
Theorem unequal_parallel_lists_index_error (raw : RawModule)
    (rest : list RawModule) (mf : gmap string scalar) (cid name d : scalar)
    (groups : list McqGroup) (w : nworld) :
  key_module_field raw = Some mf ->
  mf !! "course_id" = Some cid -> mf !! "competency_name" = Some name ->
  mf !! "module_domain" = Some d ->
  question_type_mcq raw = Some groups ->
  Exists ids_outrun groups ->
  exists w',
    preprocess (raw :: rest) w = (Raise IndexError, w')
    /\ ~ MalformedInputError IndexError
    /\ nfiles w' = nfiles w.
Proof.
  intros Hmf Hcid Hname Hd Hgroups Hbad.
  assert (exists w', preprocess (raw :: rest) w = (Raise IndexError, w'))
    as (w' & Hrun).
  { rewrite (preprocess_unfold raw rest mf cid name groups) by assumption.
    unfold render_and_save, bind.
    destruct (competency_loop_total mf cid name d groups [] w Hd) as (cs & w1 & ->).
    destruct (for_each_must_raise (mcq_group_body mf cid name) IndexError
                ids_outrun groups) with (acc := @nil Rec.t) (w := w1)
      as (w2 & ->); [| |exact Hbad|eauto].
    - intros g acc w0.
      destruct (Nat.le_gt_cases (question_count g) (parallel_len (question g))).
      + left. now apply (mcq_group_body_total mf cid name g d).
      + right. now apply (mcq_group_body_index_error mf cid name g d).
    - intros g Hg acc w0. apply ids_outrun_parallel_len in Hg.
      now apply (mcq_group_body_index_error mf cid name g d). }
  exists w'. split; [exact Hrun|]. split.
  - intros [key Hkey]. discriminate.
  - now apply preprocess_raise_no_write in Hrun.
Qed.

Lemma unequal_parallel_lists_index_error_witness :
  ids_outrun Example.group_short
  /\ exists w',
       preprocess [Example.raw_short] Example.world = (Raise IndexError, w')
       /\ nfiles w' = nfiles Example.world.
Proof.
  assert (ids_outrun Example.group_short) as Hbad by (left; vm_compute; lia).
  split; [exact Hbad|].
  destruct (unequal_parallel_lists_index_error Example.raw_short []
              Example.module_fields (SInt 341) (SStr "Urinary Catheterization")
              (SStr "Nursing") [Example.group; Example.group_short] Example.world)
    as (w' & Hrun & _ & Hfiles); try reflexivity.
  - apply Exists_cons_tl, Exists_cons_hd, Hbad.
  - exists w'. split; assumption.
Defined.

(** ** The Loader: what is submitted *)

Lemma fold_document_body (recs : list Rec.t) (acc : list Document * list string) :
  fold_left (fun acc r => document_body r acc) recs acc
  = ((acc.1 ++ map to_document recs)%list,
     (acc.2 ++ map (fun r => str (Rec.id r)) recs)%list).
Proof.
  revert acc. induction recs as [|r recs IH]; intros [docs ids]; simpl.
  - now rewrite !app_nil_r.
  - rewrite IH. simpl. now rewrite <- !app_assoc.
Qed.

Lemma lower_char_space (c : ascii) :
  Ascii.eqb (lower_char c) space = Ascii.eqb c space.
Proof. destruct c as [[] [] [] [] [] [] [] []]; reflexivity. Qed.

Lemma replace_lower (name : string) :
  replace space "_" (lower name) = normalized_module_name name.
Proof.
  induction name as [|c t IH]; simpl; [reflexivity|].
  rewrite lower_char_space, IH. destruct (Ascii.eqb c space); reflexivity.
Qed.

Lemma load_module_documents_eq {W} (data : ModuleBundle) (cid : scalar)
    (name : string) (w : W) :
  module_info data !! "course_id" = Some cid ->
  module_info data !! "competency_name" = Some (SStr name) ->
  load_module_documents data w
  = (Ok (map to_document (records data),
         map (fun r => str (Rec.id r)) (records data),
         "module_" +:+ str cid +:+ "_" +:+ normalized_module_name name), w).
Proof.
  intros Hcid Hname. unfold load_module_documents, bind, getitem.
  rewrite Hcid, Hname. simpl. rewrite !fold_document_body. simpl.
  unfold ret, records. rewrite replace_lower, !map_app, <- !app_assoc.
  reflexivity.
Qed.

Lemma load_module_documents_ok_inv {W} (data : ModuleBundle) (w w' : W)
    (docs : list Document) (ids : list string) (cname : string) :
  load_module_documents data w = (Ok (docs, ids, cname), w') ->
  exists cid name,
    module_info data !! "course_id" = Some cid
    /\ module_info data !! "competency_name" = Some (SStr name).
Proof.
  unfold load_module_documents, bind, getitem.
  destruct (module_info data !! "course_id") as [cid|]; [|discriminate].
  destruct (module_info data !! "competency_name") as [[z|name]|]; try discriminate.
  intros _. now exists cid, name.
Qed.

(** C5. The collection name is ["module_"], the course id, ["_"] and the
    module name lower-cased with every space an underscore; it depends on
    the bundle alone, so two runs on the same bundle address the same
    collection. *)
Theorem collection_name_deterministic :
  (forall (W : Type) (data : ModuleBundle) (cid : scalar) (name : string) (w : W),
      module_info data !! "course_id" = Some cid ->
      module_info data !! "competency_name" = Some (SStr name) ->
      exists docs ids,
        load_module_documents data w
        = (Ok (docs, ids,
               "module_" +:+ str cid +:+ "_" +:+ normalized_module_name name), w))
  /\ (forall (W1 W2 : Type) (data : ModuleBundle) (w1 w1' : W1) (w2 w2' : W2) r1 r2,
         load_module_documents data w1 = (Ok r1, w1') ->
         load_module_documents data w2 = (Ok r2, w2') ->
         r1.2 = r2.2)
  /\ normalized_module_name "Urinary Catheterization" = "urinary_catheterization".
Proof.
  split; [|split; [|reflexivity]].
  - intros W data cid name w Hcid Hname.
    rewrite (load_module_documents_eq data cid name w Hcid Hname). eauto.
  - intros W1 W2 data w1 w1' w2 w2' [[docs1 ids1] n1] [[docs2 ids2] n2] H1 H2.
    destruct (load_module_documents_ok_inv _ _ _ _ _ _ H1)
      as (cid & name & Hcid & Hname).
    rewrite (load_module_documents_eq data cid name w1 Hcid Hname) in H1.
    rewrite (load_module_documents_eq data cid name w2 Hcid Hname) in H2.
    inversion H1; inversion H2; subst. reflexivity.
Qed.

Lemma collection_name_deterministic_witness :
  exists docs ids,
    load_module_documents Example.bundle tt
    = (Ok (docs, ids, "module_341_urinary_catheterization"), tt).
Proof.
  apply (proj1 collection_name_deterministic unit Example.bundle (SInt 341)
           "Urinary Catheterization" tt); reflexivity.
Defined.

(** ** The Loader: idempotence *)

Section Idempotence.

Context {V C : Type} `{VectorStore V C}.
Variable embeddings : string -> V.

Lemma get_upsert_all (items : list (string * Document)) (c : C) (k : string) :
  vs_get (upsert_all embeddings items c) k = overlay embeddings items (vs_get c k) k.
Proof.
  revert c. induction items as [|[k' doc] items IH]; intros c; simpl; [reflexivity|].
  rewrite IH. f_equal. destruct (decide (k' = k)) as [->|Hne].
  - apply vs_get_upsert_eq.
  - now apply vs_get_upsert_ne.
Qed.

Lemma overlay_default (items : list (string * Document)) (before : option (Entry V))
    (k : string) :
  overlay embeddings items before k
  = match overlay embeddings items None k with
    | Some e => Some e
    | None => before
    end.
Proof.
  revert before. induction items as [|[k' doc] items IH]; intros before; simpl;
    [reflexivity|].
  rewrite IH. rewrite (IH (if decide (k' = k) then _ else None)).
  destruct (overlay embeddings items None k); [reflexivity|].
  destruct (decide (k' = k)); reflexivity.
Qed.

Lemma overlay_idempotent (items : list (string * Document))
    (before : option (Entry V)) (k : string) :
  overlay embeddings items (overlay embeddings items before k) k
  = overlay embeddings items before k.
Proof.
  rewrite (overlay_default items (overlay embeddings items before k)).
  rewrite (overlay_default items before).
  destruct (overlay embeddings items None k); reflexivity.
Qed.

Lemma overlay_is_Some (items : list (string * Document))
    (before : option (Entry V)) (k : string) :
  is_Some before \/ k ∈ map fst items -> is_Some (overlay embeddings items before k).
Proof.
  revert before. induction items as [|[k' doc] items IH]; intros before; simpl.
  - intros [Hb|Hin]; [exact Hb | inversion Hin].
  - intros [Hb|Hin]; apply IH.
    + left. destruct (decide (k' = k)); [eauto | exact Hb].
    + apply elem_of_cons in Hin as [->|Hin]; [left | now right].
      rewrite decide_True by reflexivity. eauto.
Qed.

Lemma count_upsert_all_present (items : list (string * Document)) (c : C) :
  (forall k, k ∈ map fst items -> is_Some (vs_get c k)) ->
  vs_count (upsert_all embeddings items c) = vs_count c.
Proof.
  revert c. induction items as [|[k doc] items IH]; intros c Hpresent; simpl;
    [reflexivity|].
  rewrite IH.
  - rewrite vs_count_upsert.
    destruct (Hpresent k) as [e ->]; [simpl; apply elem_of_cons; now left|].
    reflexivity.
  - intros k' Hk'. destruct (decide (k = k')) as [->|Hne].
    + rewrite vs_get_upsert_eq. eauto.
    + rewrite vs_get_upsert_ne by exact Hne. apply Hpresent. simpl.
      apply elem_of_cons. now right.
Qed.

Lemma build_vectorstore_eq (data : ModuleBundle) (cid : scalar) (name : string)
    (w : lworld C) :
  module_info data !! "course_id" = Some cid ->
  module_info data !! "competency_name" = Some (SStr name) ->
  let cname := "module_" +:+ str cid +:+ "_" +:+ normalized_module_name name in
  let c0 := collection cname w in
  let c1 := upsert_all embeddings (batch data) c0 in
  build_vectorstore embeddings data w
  = (Ok (vs_count c0, vs_count c1),
     {| llog := (llog w ++
                 if (0 <? vs_count c0)%nat
                 then [CollectionExists (vs_count c0);
                       Upserting (length (records data))]
                 else [])%list;
        chroma := <[cname := c1]> (chroma w) |}).
Proof.
  intros Hcid Hname cname c0 c1. unfold build_vectorstore.
  unfold bind at 1. rewrite (load_module_documents_eq data cid name w Hcid Hname).
  fold cname. unfold bind, open_or_create, count, add_documents, modify, gets, ret.
  assert (forall w1 : lworld C,
             w1 = match chroma w !! cname with
                  | Some _ => w
                  | None => {| llog := llog w; chroma := <[cname := vs_empty]> (chroma w) |}
                  end ->
             collection cname w1 = c0 /\ llog w1 = llog w
             /\ <[cname := c1]> (chroma w1) = <[cname := c1]> (chroma w))
    as Hopen.
  { intros w1 ->. unfold c0, collection.
    destruct (chroma w !! cname) as [c|] eqn:Hc; simpl.
    - now rewrite Hc.
    - rewrite lookup_insert_eq. simpl. split; [reflexivity|]. split; [reflexivity|].
      apply insert_insert_eq. }
  destruct (Hopen _ eq_refl) as (Hc0 & Hlog & Hins).
  remember (match chroma w !! cname with
            | Some _ => w
            | None => {| llog := llog w; chroma := <[cname := vs_empty]> (chroma w) |}
            end) as w1 eqn:Hw1.
  clear Hw1 Hopen. rewrite Hc0.
  destruct (0 <? vs_count c0)%nat; unfold lwarning, modify, collection; simpl.
  - fold (collection cname w1). rewrite Hc0.
    fold (batch data). fold c1. rewrite lookup_insert_eq. simpl.
    rewrite Hins, Hlog, length_map, <- app_assoc. reflexivity.
  - fold (collection cname w1). rewrite Hc0.
    fold (batch data). fold c1. rewrite lookup_insert_eq. simpl.
    rewrite Hins, Hlog, app_nil_r. reflexivity.
Qed.

End Idempotence.

Section IdempotenceTheorem.

Context {V C : Type} `{VectorStore V C}.
Variable embeddings : string -> V.

Lemma build_vectorstore_ok_inv (data : ModuleBundle) (w w' : lworld C)
    (r : nat * nat) :
  build_vectorstore embeddings data w = (Ok r, w') ->
  exists cid name,
    module_info data !! "course_id" = Some cid
    /\ module_info data !! "competency_name" = Some (SStr name).
Proof.
  unfold build_vectorstore. unfold bind at 1.
  destruct (load_module_documents data w) as [[[[docs ids] cname]|e] w1] eqn:Hload;
    [|discriminate].
  intros _. eapply load_module_documents_ok_inv, Hload.
Qed.

(** C1. Under the upsert contract of the store, running the Loader again on
    the same bundle leaves every collection as the first run left it: the
    count after the second run is the count before it, and the entry
    stored under each id (vector, text and metadata) is unchanged. *)
Theorem loader_idempotent (data : ModuleBundle) (w0 w1 : lworld C)
    (pre post : nat) :
  build_vectorstore embeddings data w0 = (Ok (pre, post), w1) ->
  exists w2,
    build_vectorstore embeddings data w1 = (Ok (post, post), w2)
    /\ (forall cname,
           vs_count (collection cname w2) = vs_count (collection cname w1))
    /\ (forall cname k,
           vs_get (collection cname w2) k = vs_get (collection cname w1) k).
Proof.
  intros Hrun.
  destruct (build_vectorstore_ok_inv _ _ _ _ Hrun) as (cid & name & Hcid & Hname).
  rewrite (build_vectorstore_eq embeddings data cid name w0 Hcid Hname) in Hrun.
  cbv zeta in Hrun.
  set (cname := "module_" +:+ str cid +:+ "_" +:+ normalized_module_name name) in *.
  set (c0 := collection cname w0) in *.
  set (c1 := upsert_all embeddings (batch data) c0) in *.
  injection Hrun as Hpre Hpost Hw1.
  assert (collection cname w1 = c1) as Hc1.
  { rewrite <- Hw1. unfold collection. simpl. now rewrite lookup_insert_eq. }
  assert (forall k, vs_get (upsert_all embeddings (batch data) c1) k = vs_get c1 k)
    as Hget.
  { intros k. unfold c1. rewrite !get_upsert_all. apply overlay_idempotent. }
  assert (vs_count (upsert_all embeddings (batch data) c1) = vs_count c1) as Hcount.
  { apply count_upsert_all_present. intros k Hk. unfold c1.
    rewrite get_upsert_all. apply overlay_is_Some. now right. }
  rewrite (build_vectorstore_eq embeddings data cid name w1 Hcid Hname).
  cbv zeta. fold cname. rewrite Hc1, Hcount, <- Hpost.
  eexists. split; [reflexivity|]. split.
  - intros cname'. unfold collection at 1. simpl.
    destruct (decide (cname = cname')) as [<-|Hne].
    + rewrite lookup_insert_eq. simpl. now rewrite Hc1.
    + rewrite lookup_insert_ne by exact Hne. reflexivity.
  - intros cname' k. unfold collection at 1. simpl.
    destruct (decide (cname = cname')) as [<-|Hne].
    + rewrite lookup_insert_eq. simpl. now rewrite Hc1.
    + rewrite lookup_insert_ne by exact Hne. reflexivity.
Qed.

End IdempotenceTheorem.

Lemma loader_idempotent_witness :
  build_vectorstore ExampleStore.embeddings Example.bundle ExampleStore.empty_world
  = (Ok (0, 5), ExampleStore.loaded_world)
  /\ exists w2,
       build_vectorstore ExampleStore.embeddings Example.bundle
         ExampleStore.loaded_world = (Ok (5, 5), w2)
       /\ forall cname k,
            vs_get (collection cname w2) k
            = vs_get (collection cname ExampleStore.loaded_world) k.
Proof.
  assert (build_vectorstore ExampleStore.embeddings Example.bundle
            ExampleStore.empty_world = (Ok (0, 5), ExampleStore.loaded_world))
    as Hfirst by (vm_compute; reflexivity).
  split; [exact Hfirst|].
  destruct (loader_idempotent ExampleStore.embeddings Example.bundle _ _ _ _ Hfirst)
    as (w2 & Hsecond & _ & Hget).
  exists w2. split; [exact Hsecond | exact Hget].
Defined.

(** ** The Loader: what reaches the store *)

(** C10. The ids the Loader submits are [str] of the record ids, and the
    documents the texts and metadata of the records, both in the order
    competencies, questions, checklists; these ids are the keys of the
    upsert; the Normalizer stores the id of a checklist as the export
    gives it, so an integer id reaches the store as its decimal string. *)
Theorem loader_submits_str_ids :
  (forall (W : Type) (data : ModuleBundle) (w w' : W) docs ids cname,
      load_module_documents data w = (Ok (docs, ids, cname), w') ->
      ids = map (fun r => str (Rec.id r))
              (competencies data ++ mcqs data ++ checklists data)
      /\ docs = map to_document
                  (competencies data ++ mcqs data ++ checklists data))
  /\ (forall (V C : Type) (store : VectorStore V C) (embeddings : string -> V)
             (data : ModuleBundle) (w w' : lworld C) (r : nat * nat),
         build_vectorstore embeddings data w = (Ok r, w') ->
         exists cname,
           chroma w'
           = <[cname :=
                 upsert_all embeddings
                   (zip (map (fun r => str (Rec.id r))
                           (competencies data ++ mcqs data ++ checklists data))
                        (map to_document
                           (competencies data ++ mcqs data ++ checklists data)))
                   (collection cname w)]> (chroma w))
  /\ (forall raw rest w b w',
         preprocess (raw :: rest) w = (Ok b, w') ->
         map Rec.id (checklists b)
         = map (fun c => question_id (cl_question c))
             (default [] (question_type_checklist raw)))
  /\ str (SInt 7) = "7"
  /\ str (SStr "7") = "7".
Proof.
  split; [|split; [|split; [|split; reflexivity]]].
  - intros W data w w' docs ids cname Hrun.
    destruct (load_module_documents_ok_inv _ _ _ _ _ _ Hrun)
      as (cid & name & Hcid & Hname).
    rewrite (load_module_documents_eq data cid name w Hcid Hname) in Hrun.
    inversion Hrun; subst. split; reflexivity.
  - intros V C store embeddings data w w' r Hrun.
    destruct (build_vectorstore_ok_inv _ _ _ _ _ Hrun) as (cid & name & Hcid & Hname).
    rewrite (build_vectorstore_eq embeddings data cid name w Hcid Hname) in Hrun.
    injection Hrun as _ Hw. rewrite <- Hw. simpl. eexists. reflexivity.
  - intros raw rest w b w' Hrun.
    apply preprocess_ok_inv in Hrun
      as (raw' & rest' & mf & cid & name & groups & Heq & _ & _ & _ & _ & Hrun).
    inversion Heq; subst raw' rest'.
    apply render_and_save_ok in Hrun as (_ & _ & _ & Hk & _).
    induction Hk as [|c r cls rs (d & _ & ->) _ IH]; simpl; [reflexivity|].
    now rewrite IH.
Qed.

Lemma loader_submits_str_ids_witness :
  exists b w' docs ids cname,
    preprocess [Example.raw] Example.world = (Ok b, w')
    /\ load_module_documents b tt = (Ok (docs, ids, cname), tt)
    /\ ids = ["C-17"; "101"; "102"; "103"; "7"]
    /\ map Rec.id (checklists b) = [SInt 7].
Proof.
  destruct (preprocess [Example.raw] Example.world) as [[b|e] w'] eqn:Hrun;
    [|vm_compute in Hrun; discriminate].
  destruct (load_module_documents b tt) as [[[[docs ids] cname]|e] []] eqn:Hload.
  - exists b, w', docs, ids, cname. split; [reflexivity|]. split; [exact Hload|].
    destruct loader_submits_str_ids as (Hids & _ & Hcl & _).
    destruct (Hids _ _ _ _ _ _ _ Hload) as [-> _].
    split; [|exact (Hcl _ _ _ _ _ Hrun)].
    vm_compute in Hrun. inversion Hrun. reflexivity.
  - vm_compute in Hrun. inversion Hrun; subst b. vm_compute in Hload. discriminate.
Defined.

(** * Further properties of the code *)

(** ** [clean_html] and [parse_quoted_list] at their edges *)

Lemma tagfree_sub_tags_id (s : string) : tagfree s -> sub_tags 0 s = s.
Proof.
  induction s as [|c t IH]; [reflexivity|].
  intros [Hm Ht]. rewrite sub_tags_unfold, Hm. now rewrite (IH Ht).
Qed.

Lemma length_chars (s : string) : length (chars s) = String.length s.
Proof. induction s as [|c t IH]; simpl; [reflexivity | now rewrite IH]. Qed.

(** X1. Stripping markup twice is stripping it once, and the stripped text is
    never longer than the text given. *)
Theorem clean_html_idempotent :
  forall text,
    clean_html (clean_html text) = clean_html text
    /\ String.length (clean_html text) <= String.length text.
Proof.
  intros text. unfold clean_html. split.
  - apply tagfree_sub_tags_id, sub_tags_tagfree.
  - rewrite <- !length_chars. apply sublist_length, sub_tags_sublist.
Qed.




Lemma findall_quoted_quote_free (k : nat) (s : string) :
  Forall (fun item => contains quote item = false) (findall_quoted k s).
Proof.
  revert k. induction s as [|c t IH]; intros k; [destruct k; constructor|].
  destruct k as [|k]; [|apply IH].
  change (findall_quoted 0 (String c t))
    with (match match_quoted (String c t) with
          | Some item => item :: findall_quoted (S (String.length item)) t
          | None => findall_quoted 0 t
          end).
  destruct (match_quoted (String c t)) as [item|] eqn:Hm; [|apply IH].
  constructor; [|apply IH].
  unfold match_quoted in Hm. destruct (Ascii.eqb c quote); [|discriminate].
  destruct (split_first quote t) as [[u v]|] eqn:Hsp; [|discriminate].
  inversion Hm; subst. now apply split_first_some in Hsp as [_ Hu].
Qed.

Lemma findall_quoted_budget (k : nat) (s : string) :
  sum_list_with (fun item => String.length item + 2) (findall_quoted k s)
  + Nat.min k (String.length s) <= String.length s.
Proof.
  revert k. induction s as [|c t IH]; intros k; [destruct k; simpl; lia|].
  destruct k as [|k]; [|specialize (IH k); simpl in *; lia].
  change (findall_quoted 0 (String c t))
    with (match match_quoted (String c t) with
          | Some item => item :: findall_quoted (S (String.length item)) t
          | None => findall_quoted 0 t
          end).
  destruct (match_quoted (String c t)) as [item|] eqn:Hm;
    [|specialize (IH 0); simpl in *; lia].
  unfold match_quoted in Hm. destruct (Ascii.eqb c quote); [|discriminate].
  destruct (split_first quote t) as [[u v]|] eqn:Hsp; [|discriminate].
  inversion Hm; subst. apply split_first_some in Hsp as [Ht _].
  specialize (IH (S (String.length item))).
  assert (String.length t = String.length item + S (String.length v)) as Hlen
      by (rewrite Ht, length_append; reflexivity).
  rewrite Nat.min_l in IH by lia.
  change (String.length (String c t)) with (S (String.length t)).
  rewrite Nat.min_0_l. cbn [sum_list_with]. lia.
Qed.

(** X3. No item [parse_quoted_list] returns holds a single quote, and the
    items with their two quotes each fit in the text: a text of [n]
    characters yields at most [n / 2] items. *)
Theorem parse_quoted_list_items_bounded :
  forall text,
    Forall (fun item => contains quote item = false) (parse_quoted_list text)
    /\ sum_list_with (fun item => String.length item + 2) (parse_quoted_list text)
       <= String.length text
    /\ 2 * length (parse_quoted_list text) <= String.length text.
Proof.
  intros text. unfold parse_quoted_list.
  pose proof (findall_quoted_budget 0 text) as Hsum. simpl in Hsum.
  split; [apply findall_quoted_quote_free|]. split; [lia|].
  assert (forall l : list string,
             2 * length l <= sum_list_with (fun item => String.length item + 2) l)
    as Hcount by (induction l; simpl; lia).
  specialize (Hcount (findall_quoted 0 text)). lia.
Qed.



(** ** [truncate_if_needed] for other budgets *)

(** X5. For a budget that is not negative, the text returned holds the
    smaller of the budget and the length given, a second truncation
    returns it unchanged and logs nothing, and no file is touched.  (A
    negative budget is not covered: there the slice of the source drops
    characters from the end.) *)
Theorem truncate_if_needed_min_idempotent :
  forall text (max_chars : Z) w,
    (0 <= max_chars)%Z ->
    exists cut w',
      truncate_if_needed text (Z.to_nat max_chars) w = (Ok cut, w')
      /\ Z.of_nat (String.length cut) = Z.min (Z.of_nat (String.length text)) max_chars
      /\ truncate_if_needed cut (Z.to_nat max_chars) w' = (Ok cut, w')
      /\ nfiles w' = nfiles w.
Proof.
  intros text max_chars w Hpos. rewrite truncate_if_needed_eq.
  eexists _, _. split; [reflexivity|].
  assert (String.length (clip (Z.to_nat max_chars) text)
          = Nat.min (String.length text) (Z.to_nat max_chars)) as Hlen.
  { unfold clip.
    destruct (Nat.leb_spec (String.length text) (Z.to_nat max_chars)) as [Hle|Hgt];
      [lia|].
    rewrite length_slice_to; lia. }
  split; [rewrite Hlen; lia|]. split; [|apply nfiles_log_truncation].
  rewrite truncate_if_needed_eq. unfold clip at 1, log_truncation at 1.
  destruct (Nat.leb_spec (String.length (clip (Z.to_nat max_chars) text))
              (Z.to_nat max_chars)); [reflexivity|lia].
Qed.

Lemma truncate_if_needed_min_idempotent_witness :
  exists cut w',
    truncate_if_needed "Wash hands" (Z.to_nat 4) Example.world = (Ok cut, w')
    /\ Z.of_nat (String.length cut) = Z.min (Z.of_nat (String.length "Wash hands")) 4
    /\ truncate_if_needed cut (Z.to_nat 4) w' = (Ok cut, w')
    /\ nfiles w' = nfiles Example.world.
Proof.
  apply (truncate_if_needed_min_idempotent "Wash hands" 4 Example.world). lia.
Defined.

(** ** What a returned run needs, and two faults *)

Section ForEachInv.

Context {W A S : Type}.

Lemma for_each_ok_each (body : A -> S -> M W S) (xs : list A) (acc r : S)
    (w w' : W) :
  for_each xs body acc w = (Ok r, w') ->
  Forall (fun x => exists acc0 w0 r0 w0', body x acc0 w0 = (Ok r0, w0')) xs.
Proof.
  revert acc w. induction xs as [|x xs IH]; intros acc w Hrun; [constructor|].
  simpl in Hrun. unfold bind in Hrun.
  destruct (body x acc w) as [[acc1|e1] w1] eqn:Hx; [|discriminate].
  constructor; [eauto | eapply IH, Hrun].
Qed.

End ForEachInv.

(** The three loops and the write of a run that returns. *)
Lemma render_and_save_stages (mf : gmap string scalar) (cid name : scalar)
    (groups : list McqGroup) (cls : option (list Checklist)) (w w' : nworld)
    (b : ModuleBundle) :
  render_and_save mf cid name groups cls w = (Ok b, w') ->
  exists w1 w2 w3,
    for_each groups (competency_body mf cid name) [] w = (Ok (competencies b), w1)
    /\ for_each groups (mcq_group_body mf cid name) [] w1 = (Ok (mcqs b), w2)
    /\ for_each (default [] cls) (checklist_body mf cid name) [] w2
       = (Ok (checklists b), w3)
    /\ nlog w' = nlog w3.
Proof.
  unfold render_and_save, bind. intros Hrun.
  destruct (for_each groups (competency_body _ _ _) [] w) as [[cs|e1] w1] eqn:Hc;
    [|discriminate].
  destruct (for_each groups (mcq_group_body _ _ _) [] w1) as [[ms|e2] w2] eqn:Hm;
    [|discriminate].
  exists w1, w2. destruct cls as [cls|]; simpl.
  - destruct (for_each cls (checklist_body _ _ _) [] w2) as [[ks|e3] w3] eqn:Hk;
      [|discriminate].
    exists w3. unfold write_json, modify, ret in Hrun.
    inversion Hrun; subst. simpl. repeat split; assumption.
  - exists w2. unfold write_json, modify, ret in Hrun.
    inversion Hrun; subst. simpl. repeat split; assumption.
Qed.

Lemma render_and_save_covered (mf : gmap string scalar) (cid name : scalar)
    (groups : list McqGroup) (cls : option (list Checklist)) (w w' : nworld)
    (b : ModuleBundle) :
  render_and_save mf cid name groups cls w = (Ok b, w') ->
  Forall (fun g => question_count g <= parallel_len (question g)) groups
  /\ (is_Some (mf !! "module_domain") \/ (groups = [] /\ default [] cls = [])).
Proof.
  intros Hrun.
  destruct (mf !! "module_domain") as [d|] eqn:Hd.
  - split; [|left; eauto].
    apply render_and_save_stages in Hrun as (w1 & w2 & w3 & _ & Hm & _).
    apply for_each_ok_each in Hm. eapply Forall_impl; [exact Hm|].
    intros g (acc0 & w0 & r0 & w0' & Hg).
    destruct (Nat.le_gt_cases (question_count g) (parallel_len (question g)))
      as [Hle|Hgt]; [exact Hle|].
    destruct (mcq_group_body_index_error mf cid name g d acc0 w0 Hd Hgt)
      as (w'' & Hraise).
    congruence.
  - assert (groups = [] /\ default [] cls = []) as [-> Hcls].
    { destruct groups as [|g groups].
      - split; [reflexivity|]. destruct cls as [[|c cls]|]; try reflexivity.
        destruct (render_and_save_no_domain mf cid name [] (Some (c :: cls)) w Hd I)
          as (w'' & Hraise).
        congruence.
      - destruct (render_and_save_no_domain mf cid name (g :: groups) cls w Hd I)
          as (w'' & Hraise).
        congruence. }
    split; [constructor | right; now split].
Qed.

(** X6. A Normalizer run returns only on an export that has a first
    element with the identity block, the course id, the module name and
    the MCQ list, in which the four parallel lists of every group are at
    least as long as the list of its ids, and which carries a domain or
    has no MCQ group and no checklist group. *)
Theorem preprocess_returns_only_if :
  forall raw_data w b w',
    preprocess raw_data w = (Ok b, w') -> normalizable raw_data.
Proof.
  intros raw_data w b w' Hrun.
  apply preprocess_ok_inv in Hrun
    as (raw & rest & mf & cid & name & groups & -> & Hmf & Hcid & Hname & Hg & Hrun).
  apply render_and_save_covered in Hrun as [Hcov Hdom].
  exists raw, rest, mf, groups. repeat split; eauto.
Qed.

Lemma preprocess_returns_only_if_witness :
  normalizable [Example.raw].
Proof.
  destruct (preprocess [Example.raw] Example.world) as [[b|e] w'] eqn:Hrun;
    [|vm_compute in Hrun; discriminate].
  exact (preprocess_returns_only_if [Example.raw] Example.world b w' Hrun).
Defined.

(** X7. An export that is an empty list ends the Normalizer in
    [IndexError], and one whose first element has the identity block with
    the course id and the module name but no MCQ list in the [KeyError] of
    [question_type_mcq]; in both cases no warning has been logged and no
    file written. *)
Theorem preprocess_faults :
  (forall w, preprocess [] w = (Raise IndexError, w))
  /\ (forall raw rest mf w,
         key_module_field raw = Some mf ->
         is_Some (mf !! "course_id") -> is_Some (mf !! "competency_name") ->
         question_type_mcq raw = None ->
         preprocess (raw :: rest) w = (Raise (KeyError "question_type_mcq"), w)).
Proof.
  split; [reflexivity|].
  intros raw rest mf w Hmf [cid Hcid] [name Hname] Hg.
  unfold preprocess, bind, lift, index, getkey, getitem. simpl.
  rewrite Hmf. simpl. now rewrite Hcid, Hname, Hg.
Qed.

Lemma preprocess_faults_witness :
  preprocess [] Example.world = (Raise IndexError, Example.world)
  /\ preprocess [{| key_module_field := Some Example.module_fields;
                    question_type_mcq := None;
                    question_type_checklist := None |}] Example.world
     = (Raise (KeyError "question_type_mcq"), Example.world).
Proof.
  destruct preprocess_faults as [Hempty Hmcq].
  split; [apply Hempty|].
  apply (Hmcq _ [] Example.module_fields); [reflexivity | | | reflexivity];
    apply (bool_decide_unpack _); vm_compute; reflexivity.
Defined.

(** ** Truncation of every record *)

Lemma nlog_log_truncation (text : string) (w : nworld) :
  nlog (log_truncation text MAX_CHARS w)
  = (nlog w ++
     if (String.length text <=? 2048)%nat then []
     else [TextTruncated (String.length text) 2048])%list.
Proof.
  unfold log_truncation, MAX_CHARS.
  destruct (String.length text <=? 2048)%nat; simpl; [now rewrite app_nil_r|].
  reflexivity.
Qed.

Lemma nlog_log_compression (c : Checklist) (w : nworld) :
  nlog (log_compression c w) = (nlog w ++ compression_warning c)%list.
Proof.
  unfold log_compression, compression_warning.
  destruct (MAX_CHARS <? _)%nat; simpl; [reflexivity | now rewrite app_nil_r].
Qed.

(** A loop whose turns each append records with given texts and log given
    events appends the texts, and logs the events, of all its turns. *)
Lemma for_each_texts {A} (body : A -> list Rec.t -> M nworld (list Rec.t))
    (f : A -> list string) (ev : A -> list event) :
  (forall x acc w r w',
      body x acc w = (Ok r, w') ->
      exists l, r = (acc ++ l)%list
                /\ map Rec.embedding_text l = f x
                /\ nlog w' = (nlog w ++ ev x)%list) ->
  forall xs acc w r w',
    for_each xs body acc w = (Ok r, w') ->
    exists l, r = (acc ++ l)%list
              /\ map Rec.embedding_text l = concat (map f xs)
              /\ nlog w' = (nlog w ++ concat (map ev xs))%list.
Proof.
  intros Hbody xs. induction xs as [|x xs IH]; intros acc w r w' Hrun.
  - inversion Hrun; subst. exists []. now rewrite !app_nil_r.
  - simpl in Hrun. unfold bind in Hrun.
    destruct (body x acc w) as [[acc1|e] w1] eqn:Hx; [|discriminate].
    destruct (Hbody _ _ _ _ _ Hx) as (l1 & -> & Ht1 & Hl1).
    destruct (IH _ _ _ _ Hrun) as (l2 & -> & Ht2 & Hl2).
    exists (l1 ++ l2)%list. split; [now rewrite <- app_assoc|].
    simpl. split.
    + now rewrite map_app, Ht1, Ht2.
    + now rewrite Hl2, Hl1, <- app_assoc.
Qed.

Lemma concat_map_singleton {A B} (h : A -> B) (l : list A) :
  concat (map (fun x => [h x]) l) = map h l.
Proof. induction l as [|x l IH]; simpl; [reflexivity | now rewrite IH]. Qed.

Section Texts.

Variable mf : gmap string scalar.
Variables cid name : scalar.

(** The text stored for a rendering, and the warning logged for it. *)
Let cut (text : string) : string :=
  if (String.length text <=? 2048)%nat then text else slice_to 2048 text.
Let warn (text : string) : list event :=
  if (String.length text <=? 2048)%nat then []
  else [TextTruncated (String.length text) 2048].

Lemma competency_loop_texts (groups : list McqGroup) (acc r : list Rec.t)
    (w w' : nworld) :
  for_each groups (competency_body mf cid name) acc w = (Ok r, w') ->
  exists l, r = (acc ++ l)%list
            /\ map Rec.embedding_text l
               = map (fun g => cut (competency_rendering g)) groups
            /\ nlog w'
               = (nlog w ++ concat (map (fun g => warn (competency_rendering g)) groups))%list.
Proof.
  intros Hrun.
  apply (for_each_texts _ (fun g => [cut (competency_rendering g)])
           (fun g => warn (competency_rendering g))) in Hrun.
  - now rewrite concat_map_singleton in Hrun.
  - intros g acc0 w0 r0 w0'. rewrite competency_body_eq. cbv zeta.
    destruct (mf !! "module_domain") as [d|]; [|discriminate].
    intros Hb. inversion Hb; subst. eexists. split; [reflexivity|].
    split; [reflexivity|]. apply nlog_log_truncation.
Qed.

Lemma mcq_group_body_texts (g : McqGroup) (acc r : list Rec.t) (w w' : nworld) :
  mcq_group_body mf cid name g acc w = (Ok r, w') ->
  exists l, r = (acc ++ l)%list
            /\ map Rec.embedding_text l = map cut (mcq_renderings g)
            /\ nlog w' = (nlog w ++ concat (map warn (mcq_renderings g)))%list.
Proof.
  unfold mcq_group_body, mcq_renderings. intros Hrun.
  set (text := fun iq : nat * string =>
         mcq_text (competency g)
           (default "" (parse_quoted_list (question_texts (question g)) !! iq.1))
           (default "" (parse_quoted_list (correct_options_texts (question g)) !! iq.1))
           (default ""
              (parse_quoted_list (question_id_competency_definition (question g)) !! iq.1))
           (default "" (parse_quoted_list (options_texts (question g)) !! iq.1))).
  apply (for_each_texts _ (fun iq => [cut (text iq)]) (fun iq => warn (text iq)))
    in Hrun.
  - rewrite concat_map_singleton in Hrun. now rewrite !map_map.
  - intros [i qid] acc0 w0 r0 w0'. unfold text. simpl.
    destruct (parse_quoted_list (question_texts (question g)) !! i) as [qt|] eqn:Hqt;
      [|rewrite mcq_body_index_error by tauto; discriminate].
    destruct (parse_quoted_list (correct_options_texts (question g)) !! i)
      as [co|] eqn:Hco; [|rewrite mcq_body_index_error by tauto; discriminate].
    destruct (parse_quoted_list (question_id_competency_definition (question g)) !! i)
      as [lo|] eqn:Hlo; [|rewrite mcq_body_index_error by tauto; discriminate].
    destruct (parse_quoted_list (options_texts (question g)) !! i) as [ao|] eqn:Hao;
      [|rewrite mcq_body_index_error by tauto; discriminate].
    destruct (mf !! "module_domain") as [d|] eqn:Hd.
    + rewrite (mcq_body_ok _ _ _ _ _ _ _ _ _ _ _ _ _ _ d _ _ Hqt Hco Hlo Hao Hd).
      intros Hr. inversion Hr; subst. eexists. split; [reflexivity|].
      split; [reflexivity|]. apply nlog_log_truncation.
    + unfold mcq_body, bind, lift, index. simpl.
      rewrite Hqt, Hco, Hlo, Hao. simpl. rewrite truncate_if_needed_eq.
      unfold getitem. rewrite Hd. discriminate.
Qed.

Lemma mcq_loop_texts (groups : list McqGroup) (acc r : list Rec.t) (w w' : nworld) :
  for_each groups (mcq_group_body mf cid name) acc w = (Ok r, w') ->
  exists l, r = (acc ++ l)%list
            /\ map Rec.embedding_text l
               = concat (map (fun g => map cut (mcq_renderings g)) groups)
            /\ nlog w'
               = (nlog w
                  ++ concat (map (fun g => concat (map warn (mcq_renderings g))) groups))%list.
Proof.
  apply (for_each_texts _ (fun g => map cut (mcq_renderings g))
           (fun g => concat (map warn (mcq_renderings g)))).
  intros g acc0 w0 r0 w0'. apply mcq_group_body_texts.
Qed.

Lemma checklist_loop_texts (cls : list Checklist) (acc r : list Rec.t)
    (w w' : nworld) :
  for_each cls (checklist_body mf cid name) acc w = (Ok r, w') ->
  exists l, r = (acc ++ l)%list
            /\ map Rec.embedding_text l = map (fun c => cut (checklist_rendered c)) cls
            /\ nlog w'
               = (nlog w
                  ++ concat (map (fun c => compression_warning c
                                           ++ warn (checklist_rendered c)) cls))%list.
Proof.
  intros Hrun.
  apply (for_each_texts _ (fun c => [cut (checklist_rendered c)])
           (fun c => (compression_warning c ++ warn (checklist_rendered c))%list))
    in Hrun.
  - now rewrite concat_map_singleton in Hrun.
  - intros c acc0 w0 r0 w0'. rewrite checklist_body_eq. cbv zeta.
    destruct (mf !! "module_domain") as [d|]; [|discriminate].
    intros Hb. inversion Hb; subst. eexists. split; [reflexivity|].
    split; [reflexivity|].
    now rewrite nlog_log_truncation, nlog_log_compression, <- app_assoc.
Qed.

End Texts.

(** C3. An embedding text longer than 2048 characters is cut to exactly
    its first 2048 characters and a warning is logged; one of at most 2048
    characters is returned as it is, with nothing logged.  Every record of
    every kind in a produced bundle went through this: no record holds
    more than 2048 characters; the text of each competency, question and
    checklist record is its rendering when that has at most 2048
    characters and the first 2048 characters of it otherwise; and the run
    has logged, in the order of the records, one truncation warning for
    each rendering longer than 2048 characters (after the fallback warning
    of a checklist) and nothing else. *)
Theorem truncation_policy :
  MAX_CHARS = 2048
  /\ (forall text w,
         MAX_CHARS < String.length text ->
         truncate_if_needed text MAX_CHARS w
         = (Ok (slice_to 2048 text),
            {| nlog := (nlog w ++ [TextTruncated (String.length text) 2048])%list;
               nfiles := nfiles w |})
         /\ String.length (slice_to 2048 text) = 2048
         /\ exists tail, text = slice_to 2048 text +:+ tail)
  /\ (forall text w,
         String.length text <= MAX_CHARS ->
         truncate_if_needed text MAX_CHARS w = (Ok text, w))
  /\ (forall raw_data w b w',
         preprocess raw_data w = (Ok b, w') ->
         Forall (fun r => String.length (Rec.embedding_text r) <= 2048)
           (competencies b ++ mcqs b ++ checklists b))
  /\ (forall raw rest groups w b w',
         question_type_mcq raw = Some groups ->
         preprocess (raw :: rest) w = (Ok b, w') ->
         let cut := fun text =>
           if (String.length text <=? 2048)%nat then text else slice_to 2048 text in
         let warn := fun text =>
           if (String.length text <=? 2048)%nat then []
           else [TextTruncated (String.length text) 2048] in
         let cls := default [] (question_type_checklist raw) in
         map Rec.embedding_text (competencies b)
         = map (fun g => cut (competency_rendering g)) groups
         /\ map Rec.embedding_text (mcqs b)
            = concat (map (fun g => map cut (mcq_renderings g)) groups)
         /\ map Rec.embedding_text (checklists b)
            = map (fun c => cut (checklist_rendered c)) cls
         /\ nlog w'
            = (nlog w
               ++ concat (map (fun g => warn (competency_rendering g)) groups)
               ++ concat (map (fun g => concat (map warn (mcq_renderings g))) groups)
               ++ concat (map (fun c => compression_warning c
                                        ++ warn (checklist_rendered c)) cls))%list).
Proof.
  split; [reflexivity|]. split; [|split; [|split]].
  - intros text w Hlong. split; [|split].
    + rewrite truncate_if_needed_eq. unfold clip, log_truncation.
      destruct (Nat.leb_spec (String.length text) MAX_CHARS) as [Hle|_]; [lia|].
      reflexivity.
    + apply length_slice_to. unfold MAX_CHARS in Hlong. lia.
    + apply slice_to_prefix.
  - intros text w Hshort. rewrite truncate_if_needed_eq. unfold clip, log_truncation.
    destruct (Nat.leb_spec (String.length text) MAX_CHARS) as [_|Hgt]; [|lia].
    reflexivity.
  - intros raw_data w b w' Hrun.
    apply preprocess_ok_inv in Hrun
      as (raw & rest & mf & cid & name & groups & _ & _ & _ & _ & _ & Hrun).
    exact (record_lengths _ _ _ _ _ _ _ _ Hrun).
  - intros raw rest groups w b w' Hgroups Hrun cut warn cls.
    apply preprocess_ok_inv in Hrun
      as (raw' & rest' & mf & cid & name & groups' & Heq & _ & _ & _ & Hg' & Hrun).
    inversion Heq; subst raw' rest'. rewrite Hgroups in Hg'.
    inversion Hg'; subst groups'.
    apply render_and_save_stages in Hrun as (w1 & w2 & w3 & Hc & Hm & Hk & Hlog).
    apply competency_loop_texts in Hc as (lc & Heqc & Htc & Hlc).
    apply mcq_loop_texts in Hm as (lm & Heqm & Htm & Hlm).
    apply checklist_loop_texts in Hk as (lk & Heqk & Htk & Hlk).
    simpl in Heqc, Heqm, Heqk. rewrite Heqc, Heqm, Heqk.
    split; [exact Htc|]. split; [exact Htm|]. split; [exact Htk|].
    rewrite Hlog, Hlk, Hlm, Hlc. now rewrite <- !app_assoc.
Qed.

Lemma truncation_policy_witness :
  (truncate_if_needed Example.long_text MAX_CHARS Example.world
   = (Ok (slice_to 2048 Example.long_text),
      {| nlog := [TextTruncated 2100 2048]; nfiles := ∅ |})
   /\ String.length (slice_to 2048 Example.long_text) = 2048)
  /\ truncate_if_needed "Wash hands" MAX_CHARS Example.world
     = (Ok "Wash hands", Example.world)
  /\ (exists b w',
        preprocess [Example.raw] Example.world = (Ok b, w')
        /\ Forall (fun r => String.length (Rec.embedding_text r) <= 2048)
             (competencies b ++ mcqs b ++ checklists b))
  /\ exists b w',
       preprocess [Example3.raw_long] Example.world = (Ok b, w')
       /\ map Rec.embedding_text (checklists b)
          = [checklist_full_text Example.checklist;
             slice_to 2048 (checklist_short_text Example.long_checklist)]
       /\ nlog w' = [ChecklistTooLong; TextTruncated 2203 2048].
Proof.
  destruct truncation_policy as (_ & Hlong & Hshort & Hall & Hrecords).
  split; [|split; [|split]].
  - assert (MAX_CHARS < String.length Example.long_text) as Hlen
        by (vm_compute; lia).
    destruct (Hlong Example.long_text Example.world Hlen) as (Hrun & Hcut & _).
    split; [exact Hrun | exact Hcut].
  - apply Hshort. vm_compute. lia.
  - destruct (preprocess [Example.raw] Example.world) as [[b|e] w'] eqn:Hrun;
      [|vm_compute in Hrun; discriminate].
    exists b, w'. split; [reflexivity|]. exact (Hall _ _ _ _ Hrun).
  - destruct (preprocess [Example3.raw_long] Example.world) as [[b|e] w'] eqn:Hrun;
      [|vm_compute in Hrun; discriminate].
    exists b, w'. split; [reflexivity|].
    destruct (Hrecords Example3.raw_long [] [Example.group] _ _ _ eq_refl Hrun)
      as (_ & _ & Hk & Hlog).
    split.
    + rewrite Hk. vm_compute. reflexivity.
    + rewrite Hlog. vm_compute. reflexivity.
Defined.

(** ** What a produced bundle holds *)

Lemma concat_singletons_map {A B} (f : A -> B) (xs : list A) (ls : list (list B)) :
  Forall2 (fun x l => l = [f x]) xs ls -> concat ls = map f xs.
Proof. induction 1 as [|x l xs ls -> _ IH]; simpl; [reflexivity | now rewrite IH]. Qed.

Lemma Forall2_eq_map {A B} (f : A -> B) (xs : list A) (ys : list B) :
  Forall2 (fun x y => y = f x) xs ys -> ys = map f xs.
Proof. induction 1 as [|x y xs ys -> _ IH]; simpl; [reflexivity | now rewrite IH]. Qed.

Section Contents.

Variable mf : gmap string scalar.
Variables cid name d : scalar.
Hypothesis Hd : mf !! "module_domain" = Some d.

Lemma mcq_group_body_contents (g : McqGroup) (acc r : list Rec.t) (w w' : nworld) :
  mcq_group_body mf cid name g acc w = (Ok r, w') ->
  r = (acc ++ mcq_records cid name d g)%list.
Proof.
  unfold mcq_group_body, mcq_records. intros Hrun.
  eapply for_each_collect
    with (P := fun iq l =>
                 l = [mcq_record cid name d (competency g) iq.2
                        (default "" (parse_quoted_list (question_texts (question g)) !! iq.1))
                        (default ""
                           (parse_quoted_list (correct_options_texts (question g)) !! iq.1))
                        (default ""
                           (parse_quoted_list
                              (question_id_competency_definition (question g)) !! iq.1))
                        (default "" (parse_quoted_list (options_texts (question g)) !! iq.1))])
    in Hrun.
  - destruct Hrun as (ls & -> & Hls). f_equal.
    now apply concat_singletons_map in Hls.
  - intros [i qid] acc0 w0 r0 w0'. simpl.
    destruct (parse_quoted_list (question_texts (question g)) !! i) as [qt|] eqn:Hqt;
      [|rewrite mcq_body_index_error by tauto; discriminate].
    destruct (parse_quoted_list (correct_options_texts (question g)) !! i)
      as [co|] eqn:Hco; [|rewrite mcq_body_index_error by tauto; discriminate].
    destruct (parse_quoted_list (question_id_competency_definition (question g)) !! i)
      as [lo|] eqn:Hlo; [|rewrite mcq_body_index_error by tauto; discriminate].
    destruct (parse_quoted_list (options_texts (question g)) !! i) as [ao|] eqn:Hao;
      [|rewrite mcq_body_index_error by tauto; discriminate].
    rewrite (mcq_body_ok _ _ _ _ _ _ _ _ _ _ _ _ _ _ d _ _ Hqt Hco Hlo Hao Hd).
    intros Hr. inversion Hr; subst. eexists. split; reflexivity.
Qed.

Lemma mcq_loop_contents (groups : list McqGroup) (acc r : list Rec.t)
    (w w' : nworld) :
  for_each groups (mcq_group_body mf cid name) acc w = (Ok r, w') ->
  r = (acc ++ concat (map (mcq_records cid name d) groups))%list.
Proof.
  revert acc w. induction groups as [|g groups IH]; intros acc w Hrun; simpl.
  - inversion Hrun. now rewrite app_nil_r.
  - simpl in Hrun. unfold bind in Hrun.
    destruct (mcq_group_body mf cid name g acc w) as [[acc1|e] w1] eqn:Hg;
      [|discriminate].
    apply mcq_group_body_contents in Hg as ->. apply IH in Hrun as ->.
    now rewrite <- app_assoc.
Qed.

End Contents.

(** X8. With the domain present, the bundle holds, in the order of the
    export, one competency record a group, the question records of each
    group id by id, each made of the entries at the index of its id, and
    one checklist record a checklist group; its [module_info] is the
    identity block as given. *)
Theorem bundle_contents (raw : RawModule) (rest : list RawModule)
    (mf : gmap string scalar) (cid name d : scalar) (groups : list McqGroup)
    (w w' : nworld) (b : ModuleBundle) :
  key_module_field raw = Some mf ->
  mf !! "course_id" = Some cid -> mf !! "competency_name" = Some name ->
  mf !! "module_domain" = Some d ->
  question_type_mcq raw = Some groups ->
  preprocess (raw :: rest) w = (Ok b, w') ->
  module_info b = mf
  /\ competencies b = map (competency_record cid name d) groups
  /\ mcqs b = concat (map (mcq_records cid name d) groups)
  /\ checklists b
     = map (checklist_record cid name d) (default [] (question_type_checklist raw)).
Proof.
  intros Hmf Hcid Hname Hd Hg Hrun.
  rewrite (preprocess_unfold raw rest mf cid name groups) in Hrun by assumption.
  pose proof (render_and_save_stages _ _ _ _ _ _ _ _ Hrun)
    as (w1 & w2 & w3 & _ & Hm & _).
  apply render_and_save_ok in Hrun as (Hinfo & Hc & _ & Hk & _).
  split; [exact Hinfo|]. split; [|split].
  - apply Forall2_eq_map. eapply Forall2_impl; [exact Hc|].
    intros g r (d' & Hd' & ->). congruence.
  - now apply (mcq_loop_contents mf cid name d Hd) in Hm.
  - apply Forall2_eq_map. eapply Forall2_impl; [exact Hk|].
    intros c r (d' & Hd' & ->). congruence.
Qed.

Lemma bundle_contents_witness :
  exists b w',
    preprocess [Example.raw] Example.world = (Ok b, w')
    /\ competencies b
       = [competency_record (SInt 341) (SStr "Urinary Catheterization")
            (SStr "Nursing") Example.group]
    /\ map Rec.id (mcqs b) = [SStr "101"; SStr "102"; SStr "103"].
Proof.
  destruct (preprocess [Example.raw] Example.world) as [[b|e] w'] eqn:Hrun;
    [|vm_compute in Hrun; discriminate].
  exists b, w'. split; [reflexivity|].
  destruct (bundle_contents Example.raw [] Example.module_fields (SInt 341)
              (SStr "Urinary Catheterization") (SStr "Nursing") [Example.group]
              Example.world w' b eq_refl eq_refl eq_refl eq_refl eq_refl Hrun)
    as (_ & Hc & Hm & _).
  split; [exact Hc|]. rewrite Hm. reflexivity.
Defined.

(** X9. A run that returns has written the bundle it returns to
    [OUTPUT_DIR/processed_module_{course_id}.json], replacing what was
    there, and has left every other file as it was. *)
Theorem preprocess_writes_one_file (raw_data : list RawModule) (w w' : nworld)
    (b : ModuleBundle) :
  preprocess raw_data w = (Ok b, w') ->
  exists cid,
    module_info b !! "course_id" = Some cid
    /\ nfiles w' !! (OUTPUT_DIR +:+ "/processed_module_" +:+ str cid +:+ ".json")
       = Some b
    /\ forall path,
         path <> OUTPUT_DIR +:+ "/processed_module_" +:+ str cid +:+ ".json" ->
         nfiles w' !! path = nfiles w !! path.
Proof.
  intros Hrun.
  apply preprocess_ok_inv in Hrun
    as (raw & rest & mf & cid & name & groups & _ & _ & Hcid & _ & _ & Hrun).
  apply render_and_save_ok in Hrun as (Hinfo & _ & _ & _ & _ & Hfiles).
  exists cid. rewrite Hinfo, Hfiles. unfold output_file.
  split; [exact Hcid|]. split.
  - apply lookup_insert_eq.
  - intros path Hpath. now apply lookup_insert_ne.
Qed.

Lemma preprocess_writes_one_file_witness :
  exists b w',
    preprocess [Example.raw] Example.world = (Ok b, w')
    /\ nfiles w' !! "D:\BodhiLabs\Project\data\preprocessed/processed_module_341.json"
       = Some b.
Proof.
  destruct (preprocess [Example.raw] Example.world) as [[b|e] w'] eqn:Hrun;
    [|vm_compute in Hrun; discriminate].
  exists b, w'. split; [reflexivity|].
  destruct (preprocess_writes_one_file _ _ _ _ Hrun) as (cid & Hcid & Hfile & _).
  assert (cid = SInt 341) as ->.
  { vm_compute in Hrun. inversion Hrun; subst b. vm_compute in Hcid. congruence. }
  exact Hfile.
Defined.

Lemma Forall2_Forall2_right {A B C} (P : A -> B -> Prop) (Q : A -> C -> Prop)
    (xs : list A) (ys : list B) (zs : list C) :
  Forall2 P xs ys -> Forall2 Q xs zs ->
  Forall2 (fun y z => exists x, P x y /\ Q x z) ys zs.
Proof.
  intros HP. revert zs. induction HP as [|x y xs ys Hxy _ IH]; intros zs HQ;
    inversion HQ; subst; constructor; eauto.
Qed.

(** X10. In a produced bundle every record names its kind under
    [doc_type]; the metadata of a question or checklist record holds, under
    [question_id], the very string the Loader uses as its key, and that of
    a competency record holds its id under [competency_id]. *)
Theorem metadata_names_the_key (raw_data : list RawModule) (w w' : nworld)
    (b : ModuleBundle) :
  preprocess raw_data w = (Ok b, w') ->
  Forall (fun r =>
            metadata_get "doc_type" (Rec.metadata r) = Some (SStr "competency")
            /\ metadata_get "competency_id" (Rec.metadata r) = Some (Rec.id r))
    (competencies b)
  /\ Forall (fun r =>
               metadata_get "doc_type" (Rec.metadata r) = Some (SStr "mcq")
               /\ metadata_get "question_id" (Rec.metadata r)
                  = Some (SStr (str (Rec.id r))))
       (mcqs b)
  /\ Forall (fun r =>
               metadata_get "doc_type" (Rec.metadata r) = Some (SStr "checklist")
               /\ metadata_get "question_id" (Rec.metadata r)
                  = Some (SStr (str (Rec.id r))))
       (checklists b).
Proof.
  intros Hrun.
  apply preprocess_ok_inv in Hrun
    as (raw & rest & mf & cid & name & groups & _ & _ & _ & _ & _ & Hrun).
  apply render_and_save_ok in Hrun as (_ & Hc & (ls & -> & Hls) & Hk & _).
  split; [|split].
  - eapply Forall2_Forall_right; [|exact Hc].
    intros g r (d & _ & ->). split; reflexivity.
  - apply Forall_concat. eapply Forall2_Forall_right; [|exact Hls].
    intros g l Hl. eapply Forall2_Forall_right; [|exact Hl].
    intros qid r (d & qt & co & lo & ao & _ & ->). split; reflexivity.
  - eapply Forall2_Forall_right; [|exact Hk].
    intros c r (d & _ & ->). split; reflexivity.
Qed.

Lemma metadata_names_the_key_witness :
  exists b w',
    preprocess [Example.raw] Example.world = (Ok b, w')
    /\ Forall (fun r =>
                 metadata_get "doc_type" (Rec.metadata r) = Some (SStr "checklist")
                 /\ metadata_get "question_id" (Rec.metadata r)
                    = Some (SStr (str (Rec.id r))))
         (checklists b).
Proof.
  destruct (preprocess [Example.raw] Example.world) as [[b|e] w'] eqn:Hrun;
    [|vm_compute in Hrun; discriminate].
  exists b, w'. split; [reflexivity|].
  exact (proj2 (proj2 (metadata_names_the_key _ _ _ _ Hrun))).
Defined.

(** X11. In a produced bundle every record carries the identity of the
    module: its [course_id], [competency_name] and [module_domain]
    metadata are the values of the identity block. *)
Theorem records_carry_module_identity (raw_data : list RawModule) (w w' : nworld)
    (b : ModuleBundle) :
  preprocess raw_data w = (Ok b, w') ->
  Forall (fun r =>
            metadata_get "course_id" (Rec.metadata r) = module_info b !! "course_id"
            /\ metadata_get "competency_name" (Rec.metadata r)
               = module_info b !! "competency_name"
            /\ metadata_get "module_domain" (Rec.metadata r)
               = module_info b !! "module_domain")
    (competencies b ++ mcqs b ++ checklists b).
Proof.
  intros Hrun.
  apply preprocess_ok_inv in Hrun
    as (raw & rest & mf & cid & name & groups & _ & _ & Hcid & Hname & _ & Hrun).
  apply render_and_save_ok in Hrun as (-> & Hc & (ls & -> & Hls) & Hk & _).
  rewrite Hcid, Hname. rewrite !Forall_app. split; [|split].
  - eapply Forall2_Forall_right; [|exact Hc].
    intros g r (d & -> & ->). repeat split.
  - apply Forall_concat. eapply Forall2_Forall_right; [|exact Hls].
    intros g l Hl. eapply Forall2_Forall_right; [|exact Hl].
    intros qid r (d & qt & co & lo & ao & -> & ->). repeat split.
  - eapply Forall2_Forall_right; [|exact Hk].
    intros c r (d & -> & ->). repeat split.
Qed.

Lemma records_carry_module_identity_witness :
  exists b w',
    preprocess [Example.raw] Example.world = (Ok b, w')
    /\ Forall (fun r =>
                 metadata_get "course_id" (Rec.metadata r) = Some (SInt 341)
                 /\ metadata_get "module_domain" (Rec.metadata r)
                    = Some (SStr "Nursing"))
         (competencies b ++ mcqs b ++ checklists b).
Proof.
  destruct (preprocess [Example.raw] Example.world) as [[b|e] w'] eqn:Hrun;
    [|vm_compute in Hrun; discriminate].
  exists b, w'. split; [reflexivity|].
  pose proof (records_carry_module_identity _ _ _ _ Hrun) as Hall.
  assert (module_info b = Example.module_fields) as Hinfo
      by (vm_compute in Hrun; inversion Hrun; reflexivity).
  rewrite Hinfo in Hall. eapply Forall_impl; [exact Hall|].
  intros r (H1 & _ & H3). split; [exact H1 | exact H3].
Defined.

(** X12. Group by group: the competency record of a group has the id of
    its competency and stores, under [question_count], the number of ids
    of the group; the question records of the bundle split, in the order
    of the groups, into one run a group, which has that many records,
    each naming the competency of the group under [competency_id]. *)
Theorem question_count_matches_records (raw : RawModule) (rest : list RawModule)
    (groups : list McqGroup) (w w' : nworld) (b : ModuleBundle) :
  question_type_mcq raw = Some groups ->
  preprocess (raw :: rest) w = (Ok b, w') ->
  Forall2 (fun g r =>
             Rec.id r = competency_id (competency g)
             /\ metadata_get "question_count" (Rec.metadata r)
                = Some (SInt (Z.of_nat (question_count g))))
    groups (competencies b)
  /\ exists per_group,
       mcqs b = concat per_group
       /\ Forall2 (fun g l =>
                     length l = question_count g
                     /\ Forall (fun q =>
                                  metadata_get "competency_id" (Rec.metadata q)
                                  = Some (competency_id (competency g))) l)
            groups per_group.
Proof.
  intros Hgroups Hrun.
  apply preprocess_ok_inv in Hrun
    as (raw' & rest' & mf & cid & name & groups' & Heq & _ & _ & _ & Hg' & Hrun).
  inversion Heq; subst raw' rest'. rewrite Hgroups in Hg'.
  inversion Hg'; subst groups'.
  apply render_and_save_ok in Hrun as (_ & Hc & (ls & Hm & Hls) & _).
  split.
  - eapply Forall2_impl; [exact Hc|].
    intros g r (d & _ & ->). split; reflexivity.
  - exists ls. split; [exact Hm|].
    eapply Forall2_impl; [exact Hls|].
    intros g l Hl. split; [symmetry; exact (Forall2_length _ _ _ Hl)|].
    eapply Forall2_Forall_right; [|exact Hl].
    intros qid q (d & qt & co & lo & ao & _ & ->). reflexivity.
Qed.

Lemma question_count_matches_records_witness :
  exists b w',
    preprocess [Example.raw] Example.world = (Ok b, w')
    /\ Forall2 (fun g r =>
                  Rec.id r = competency_id (competency g)
                  /\ metadata_get "question_count" (Rec.metadata r)
                     = Some (SInt (Z.of_nat (question_count g))))
         [Example.group] (competencies b)
    /\ exists per_group,
         mcqs b = concat per_group
         /\ Forall2 (fun g l =>
                       length l = question_count g
                       /\ Forall (fun q =>
                                    metadata_get "competency_id" (Rec.metadata q)
                                    = Some (competency_id (competency g))) l)
              [Example.group] per_group.
Proof.
  destruct (preprocess [Example.raw] Example.world) as [[b|e] w'] eqn:Hrun;
    [|vm_compute in Hrun; discriminate].
  exists b, w'. split; [reflexivity|].
  exact (question_count_matches_records Example.raw [] [Example.group] _ _ _
           eq_refl Hrun).
Defined.

(** ** The Loader: faults, lookups and counts *)

Lemma zip_map_same {A B D} (f : A -> B) (g : A -> D) (l : list A) :
  zip (map f l) (map g l) = map (fun x => (f x, g x)) l.
Proof. induction l as [|x l IH]; simpl; [reflexivity | now rewrite IH]. Qed.

Section LoaderRuns.

Context {V C : Type} `{VectorStore V C}.
Variable embeddings : string -> V.

Lemma overlay_app (a b : list (string * Document)) (before : option (Entry V))
    (k : string) :
  overlay embeddings (a ++ b) before k
  = overlay embeddings b (overlay embeddings a before k) k.
Proof.
  revert before. induction a as [|[k' doc] a IH]; intros before; simpl;
    [reflexivity | apply IH].
Qed.

Lemma overlay_not_in (items : list (string * Document)) (before : option (Entry V))
    (k : string) :
  k ∉ map fst items -> overlay embeddings items before k = before.
Proof.
  revert before. induction items as [|[k' doc] items IH]; intros before Hk; simpl;
    [reflexivity|].
  simpl in Hk. apply not_elem_of_cons in Hk as [Hne Hk].
  rewrite IH by exact Hk. now rewrite decide_False by congruence.
Qed.

Lemma batch_keys (data : ModuleBundle) :
  map fst (batch data) = map upsert_key (records data).
Proof.
  unfold batch. rewrite zip_map_same, map_map. reflexivity.
Qed.

Lemma overlay_batch_last (r : Rec.t) (pre post : list Rec.t)
    (o : option (Entry V)) (data : ModuleBundle) :
  records data = (pre ++ r :: post)%list ->
  Forall (fun r' => upsert_key r' <> upsert_key r) post ->
  overlay embeddings (batch data) o (upsert_key r) = Some (stored_entry embeddings r).
Proof.
  intros Hrecs Hpost. unfold batch. rewrite zip_map_same, Hrecs, map_app.
  rewrite overlay_app. simpl. rewrite decide_True by reflexivity.
  rewrite overlay_not_in; [reflexivity|].
  rewrite map_map. simpl. intro Hin.
  apply list_elem_of_In, in_map_iff in Hin as (r' & Heq & Hr').
  apply list_elem_of_In in Hr'.
  rewrite Forall_forall in Hpost. now apply (Hpost r' Hr').
Qed.

Lemma count_upsert_all_bounds (items : list (string * Document)) (c : C) :
  vs_count c <= vs_count (upsert_all embeddings items c)
  /\ vs_count (upsert_all embeddings items c) <= vs_count c + length items.
Proof.
  revert c. induction items as [|[k doc] items IH]; intros c; simpl; [lia|].
  destruct (IH (vs_upsert k (entry_of embeddings doc) c)) as [Hlo Hhi].
  fold (entry_of embeddings doc).
  rewrite vs_count_upsert in Hlo, Hhi. destruct (vs_get c k); lia.
Qed.

Lemma count_upsert_all_fresh (items : list (string * Document)) (c : C) :
  NoDup (map fst items) ->
  (forall k, k ∈ map fst items -> vs_get c k = None) ->
  vs_count (upsert_all embeddings items c) = vs_count c + length items.
Proof.
  revert c. induction items as [|[k doc] items IH]; intros c Hnd Hfresh; simpl;
    [lia|].
  simpl in Hnd. apply NoDup_cons in Hnd as [Hk Hnd].
  rewrite IH; [|exact Hnd|].
  - rewrite vs_count_upsert, (Hfresh k) by (simpl; apply elem_of_cons; now left).
    lia.
  - intros k' Hk'. rewrite vs_get_upsert_ne by (intros ->; contradiction).
    apply Hfresh. simpl. apply elem_of_cons. now right.
Qed.

(** X13. When the bundle lacks its course id or module name, or the name
    is not a string, the Loader ends with the [KeyError] of the missing
    key or an [AttributeError], before a collection is opened: the store
    and the log are as they were. *)
Theorem loader_faults_touch_nothing (data : ModuleBundle) (w : lworld C) :
  (module_info data !! "course_id" = None ->
   build_vectorstore embeddings data w = (Raise (KeyError "course_id"), w))
  /\ (is_Some (module_info data !! "course_id") ->
      module_info data !! "competency_name" = None ->
      build_vectorstore embeddings data w = (Raise (KeyError "competency_name"), w))
  /\ (forall z,
         is_Some (module_info data !! "course_id") ->
         module_info data !! "competency_name" = Some (SInt z) ->
         build_vectorstore embeddings data w = (Raise (AttributeError "lower"), w)).
Proof.
  split; [|split].
  - intros Hcid. unfold build_vectorstore. unfold bind at 1.
    unfold load_module_documents, bind, getitem. now rewrite Hcid.
  - intros [cid Hcid] Hname. unfold build_vectorstore. unfold bind at 1.
    unfold load_module_documents, bind, getitem. now rewrite Hcid, Hname.
  - intros z [cid Hcid] Hname. unfold build_vectorstore. unfold bind at 1.
    unfold load_module_documents, bind, getitem. now rewrite Hcid, Hname.
Qed.

Section OneRun.

Variable data : ModuleBundle.
Variable cid : scalar.
Variable name : string.
Hypothesis Hcid : module_info data !! "course_id" = Some cid.
Hypothesis Hname : module_info data !! "competency_name" = Some (SStr name).

Lemma collection_after_run (w : lworld C) :
  exists w',
    build_vectorstore embeddings data w
    = (Ok (vs_count (collection (collection_name cid name) w),
           vs_count (upsert_all embeddings (batch data)
                       (collection (collection_name cid name) w))), w')
    /\ collection (collection_name cid name) w'
       = upsert_all embeddings (batch data) (collection (collection_name cid name) w)
    /\ (forall other, other <> collection_name cid name ->
                      chroma w' !! other = chroma w !! other)
    /\ llog w'
       = (llog w ++
          if (0 <? vs_count (collection (collection_name cid name) w))%nat
          then [CollectionExists (vs_count (collection (collection_name cid name) w));
                Upserting (length (records data))]
          else [])%list.
Proof.
  rewrite (build_vectorstore_eq embeddings data cid name w Hcid Hname). cbv zeta.
  fold (collection_name cid name). eexists. split; [reflexivity|].
  unfold collection at 1. simpl. rewrite lookup_insert_eq. simpl.
  split; [reflexivity|]. split; [|reflexivity].
  intros other Hother. now apply lookup_insert_ne.
Qed.

End OneRun.

Lemma run_collection (data : ModuleBundle) (cid : scalar) (name : string)
    (w w' : lworld C) (pre post : nat) :
  module_info data !! "course_id" = Some cid ->
  module_info data !! "competency_name" = Some (SStr name) ->
  build_vectorstore embeddings data w = (Ok (pre, post), w') ->
  pre = vs_count (collection (collection_name cid name) w)
  /\ post = vs_count (collection (collection_name cid name) w')
  /\ collection (collection_name cid name) w'
     = upsert_all embeddings (batch data) (collection (collection_name cid name) w)
  /\ (forall other, other <> collection_name cid name ->
                    chroma w' !! other = chroma w !! other)
  /\ is_Some (chroma w' !! collection_name cid name).
Proof.
  intros Hcid Hname Hrun.
  destruct (collection_after_run data cid name Hcid Hname w)
    as (w'' & Hrun' & Hcol & Hother & _).
  rewrite Hrun in Hrun'. injection Hrun' as Hpre Hpost Hw. subst w''.
  split; [exact Hpre|]. split; [now rewrite Hcol|]. split; [exact Hcol|].
  split; [exact Hother|].
  rewrite (build_vectorstore_eq embeddings data cid name w Hcid Hname) in Hrun.
  cbv zeta in Hrun. fold (collection_name cid name) in Hrun.
  injection Hrun as _ _ Hw. rewrite <- Hw. simpl. rewrite lookup_insert_eq. eauto.
Qed.

Lemma length_batch (data : ModuleBundle) :
  length (batch data) = length (records data).
Proof. rewrite <- (length_map fst), batch_keys, length_map. reflexivity. Qed.

(** X14. After a run that returns on a bundle whose keys are pairwise
    distinct, the store holds under the key of every record the vector and
    the document of that record. *)
Theorem store_holds_each_record (data : ModuleBundle) (cid : scalar)
    (name : string) (w w' : lworld C) (pre post : nat) :
  module_info data !! "course_id" = Some cid ->
  module_info data !! "competency_name" = Some (SStr name) ->
  build_vectorstore embeddings data w = (Ok (pre, post), w') ->
  NoDup (map (fun r => str (Rec.id r))
           (competencies data ++ mcqs data ++ checklists data)) ->
  forall r,
    r ∈ (competencies data ++ mcqs data ++ checklists data)%list ->
    vs_get (collection (collection_name cid name) w') (str (Rec.id r))
    = Some {| vector := embeddings (Rec.embedding_text r);
              document := to_document r |}.
Proof.
  intros Hcid Hname Hrun Hnd r Hr.
  destruct (run_collection data cid name w w' pre post Hcid Hname Hrun)
    as (_ & _ & Hcol & _).
  rewrite Hcol, get_upsert_all.
  apply list_elem_of_split in Hr as (before & after & Hrecs).
  apply (overlay_batch_last r before after _ data Hrecs).
  rewrite Hrecs, map_app in Hnd. apply NoDup_app in Hnd as (_ & _ & Hnd).
  simpl in Hnd. apply NoDup_cons in Hnd as [Hnotin _].
  apply Forall_forall. intros r' Hr' Heq. apply Hnotin.
  unfold upsert_key in Heq. rewrite <- Heq.
  apply list_elem_of_In, in_map_iff. exists r'. split; [reflexivity|].
  now apply list_elem_of_In.
Qed.

(** X15. A run that returns has deleted nothing: an id that is not a key of
    the bundle keeps its entry, an id that was present is still present,
    every other collection is as it was, and the count has neither fallen
    nor risen by more than the number of records. *)
Theorem loader_never_deletes (data : ModuleBundle) (cid : scalar)
    (name : string) (w w' : lworld C) (pre post : nat) :
  module_info data !! "course_id" = Some cid ->
  module_info data !! "competency_name" = Some (SStr name) ->
  build_vectorstore embeddings data w = (Ok (pre, post), w') ->
  (forall k,
      k ∉ map (fun r => str (Rec.id r)) (records data) ->
      vs_get (collection (collection_name cid name) w') k
      = vs_get (collection (collection_name cid name) w) k)
  /\ (forall k,
         is_Some (vs_get (collection (collection_name cid name) w) k) ->
         is_Some (vs_get (collection (collection_name cid name) w') k))
  /\ (forall other,
         other <> collection_name cid name ->
         chroma w' !! other = chroma w !! other)
  /\ pre <= post <= pre + length (records data).
Proof.
  intros Hcid Hname Hrun.
  destruct (run_collection data cid name w w' pre post Hcid Hname Hrun)
    as (-> & -> & Hcol & Hother & _).
  rewrite Hcol. split; [|split; [|split; [exact Hother|]]].
  - intros k Hk. rewrite get_upsert_all. apply overlay_not_in.
    now rewrite batch_keys.
  - intros k Hk. rewrite get_upsert_all. apply overlay_is_Some. now left.
  - rewrite <- length_batch. apply count_upsert_all_bounds.
Qed.

(** X16. When a run returns on a bundle whose keys are pairwise distinct
    and none of which was in the collection, the count it reports last is
    the count it reports first plus the number of records. *)
Theorem loader_fresh_count (data : ModuleBundle) (cid : scalar)
    (name : string) (w w' : lworld C) (pre post : nat) :
  module_info data !! "course_id" = Some cid ->
  module_info data !! "competency_name" = Some (SStr name) ->
  build_vectorstore embeddings data w = (Ok (pre, post), w') ->
  NoDup (map (fun r => str (Rec.id r)) (records data)) ->
  (forall r, r ∈ records data ->
             vs_get (collection (collection_name cid name) w) (str (Rec.id r)) = None) ->
  post = pre + length (records data).
Proof.
  intros Hcid Hname Hrun Hnd Hfresh.
  destruct (run_collection data cid name w w' pre post Hcid Hname Hrun)
    as (-> & -> & Hcol & _).
  rewrite Hcol, count_upsert_all_fresh.
  - now rewrite length_batch.
  - now rewrite batch_keys.
  - rewrite batch_keys. intros k Hk.
    apply list_elem_of_In, in_map_iff in Hk as (r & <- & Hr).
    apply Hfresh. now apply list_elem_of_In.
Qed.

(** X17. The count reported first is that of the target collection as the
    run found it, zero when the collection did not exist; the two warnings
    are logged exactly when it is positive; and after the run the
    collection exists. *)
Theorem loader_warns_when_nonempty (data : ModuleBundle) (cid : scalar)
    (name : string) (w w' : lworld C) (pre post : nat) :
  module_info data !! "course_id" = Some cid ->
  module_info data !! "competency_name" = Some (SStr name) ->
  build_vectorstore embeddings data w = (Ok (pre, post), w') ->
  pre = vs_count (collection (collection_name cid name) w)
  /\ (chroma w !! collection_name cid name = None -> pre = 0)
  /\ (pre = 0 -> llog w' = llog w)
  /\ (0 < pre ->
      llog w' = (llog w ++ [CollectionExists pre; Upserting (length (records data))])%list)
  /\ is_Some (chroma w' !! collection_name cid name).
Proof.
  intros Hcid Hname Hrun.
  rewrite (build_vectorstore_eq embeddings data cid name w Hcid Hname) in Hrun.
  cbv zeta in Hrun. fold (collection_name cid name) in Hrun.
  injection Hrun as Hpre Hpost Hw. subst w'. simpl.
  split; [now rewrite Hpre|]. split; [|split; [|split]].
  - intros Hnone. rewrite <- Hpre. unfold collection. rewrite Hnone. simpl.
    apply vs_count_empty.
  - intros Hzero. rewrite Hpre, Hzero. simpl. apply app_nil_r.
  - intros Hpos. rewrite Hpre.
    destruct (Nat.ltb_spec 0 pre); [reflexivity | lia].
  - rewrite lookup_insert_eq. eauto.
Qed.

(** X18. When a first load returns and a second load of a bundle for the
    same module returns after it, with pairwise distinct keys that are all
    keys of the first bundle, the second load reports the count the first
    one ended with, before and after, and the store then holds the
    documents of the second bundle under their keys. *)
Theorem reload_replaces_documents (data data' : ModuleBundle) (cid : scalar)
    (name : string) (w0 w1 w2 : lworld C) (pre1 post1 pre2 post2 : nat) :
  module_info data !! "course_id" = Some cid ->
  module_info data !! "competency_name" = Some (SStr name) ->
  module_info data' = module_info data ->
  build_vectorstore embeddings data w0 = (Ok (pre1, post1), w1) ->
  build_vectorstore embeddings data' w1 = (Ok (pre2, post2), w2) ->
  NoDup (map (fun r => str (Rec.id r)) (records data')) ->
  (forall r', r' ∈ records data' ->
              str (Rec.id r') ∈ map (fun r => str (Rec.id r)) (records data)) ->
  pre2 = post1 /\ post2 = post1
  /\ forall r,
       r ∈ records data' ->
       vs_get (collection (collection_name cid name) w2) (str (Rec.id r))
       = Some {| vector := embeddings (Rec.embedding_text r);
                 document := to_document r |}.
Proof.
  intros Hcid Hname Hinfo Hrun1 Hrun2 Hnd Hkeys.
  assert (module_info data' !! "course_id" = Some cid) as Hcid'
      by now rewrite Hinfo.
  assert (module_info data' !! "competency_name" = Some (SStr name)) as Hname'
      by now rewrite Hinfo.
  destruct (run_collection data cid name w0 w1 pre1 post1 Hcid Hname Hrun1)
    as (_ & Hpost1 & Hcol1 & _).
  destruct (run_collection data' cid name w1 w2 pre2 post2 Hcid' Hname' Hrun2)
    as (Hpre2 & Hpost2 & Hcol2 & _).
  split; [congruence|]. split.
  - rewrite Hpost2, Hcol2, Hpost1. apply count_upsert_all_present.
    intros k Hk. rewrite batch_keys in Hk.
    apply list_elem_of_In, in_map_iff in Hk as (r' & <- & Hr').
    apply list_elem_of_In, Hkeys in Hr'.
    rewrite Hcol1, get_upsert_all. apply overlay_is_Some. right.
    now rewrite batch_keys.
  - intros r Hr. rewrite Hcol2, get_upsert_all.
    apply list_elem_of_split in Hr as (before & after & Hrecs).
    apply (overlay_batch_last r before after _ data' Hrecs).
    rewrite Hrecs, map_app in Hnd. apply NoDup_app in Hnd as (_ & _ & Hnd).
    simpl in Hnd. apply NoDup_cons in Hnd as [Hnotin _].
    apply Forall_forall. intros r' Hr' Heq. apply Hnotin.
    unfold upsert_key in Heq. rewrite <- Heq.
    apply list_elem_of_In, in_map_iff. exists r'. split; [reflexivity|].
    now apply list_elem_of_In.
Qed.

(** X19. On a bundle the Normalizer produced from an export whose module
    name is a string, [load_module_documents] returns: as many documents
    and ids as the [total_vectors] of the bundle, and the collection name
    made of the course id and module name of the export.  When the Loader
    then returns, that collection exists, and if it did not exist before
    and the keys are pairwise distinct, the counts reported are 0 and
    [total_vectors]. *)
Theorem normalized_bundle_loads (raw : RawModule) (rest : list RawModule)
    (mf : gmap string scalar) (cid : scalar) (name : string)
    (w w' : nworld) (b : ModuleBundle) :
  key_module_field raw = Some mf ->
  mf !! "course_id" = Some cid ->
  mf !! "competency_name" = Some (SStr name) ->
  preprocess (raw :: rest) w = (Ok b, w') ->
  (forall (W : Type) (lw : W),
      exists docs ids,
        load_module_documents b lw = (Ok (docs, ids, collection_name cid name), lw)
        /\ length docs = total_vectors b /\ length ids = total_vectors b)
  /\ (forall (lw lw' : lworld C) (pre post : nat),
         build_vectorstore embeddings b lw = (Ok (pre, post), lw') ->
         is_Some (chroma lw' !! collection_name cid name)
         /\ (chroma lw !! collection_name cid name = None ->
             NoDup (map (fun r => str (Rec.id r)) (records b)) ->
             pre = 0 /\ post = total_vectors b)).
Proof.
  intros Hmf Hcid Hname Hrun.
  apply preprocess_ok_inv in Hrun
    as (raw' & rest' & mf' & cid' & name' & groups & Heq & Hmf' & _ & _ & _ & Hrun).
  inversion Heq; subst raw' rest'. rewrite Hmf in Hmf'. inversion Hmf'; subst mf'.
  apply render_and_save_ok in Hrun as (Hinfo & _ & _ & _ & Htot & _).
  assert (module_info b !! "course_id" = Some cid) as Hcid' by now rewrite Hinfo.
  assert (module_info b !! "competency_name" = Some (SStr name)) as Hname'
      by now rewrite Hinfo.
  assert (length (records b) = total_vectors b) as Hlen
      by (unfold records; rewrite !length_app, Htot; lia).
  split.
  - intros W lw. rewrite (load_module_documents_eq b cid name lw Hcid' Hname').
    eexists _, _. split; [reflexivity|]. now rewrite !length_map.
  - intros lw lw' pre post Hbuild.
    destruct (run_collection b cid name lw lw' pre post Hcid' Hname' Hbuild)
      as (Hpre & Hpost & Hcol & _ & Hsome).
    split; [exact Hsome|]. intros Hnone Hnd.
    assert (collection (collection_name cid name) lw = vs_empty) as Hempty
        by (unfold collection; now rewrite Hnone).
    rewrite Hpre, Hpost, Hcol, Hempty, vs_count_empty. split; [reflexivity|].
    rewrite count_upsert_all_fresh.
    + now rewrite vs_count_empty, length_batch.
    + now rewrite batch_keys.
    + intros k _. apply vs_get_empty.
Qed.

End LoaderRuns.

Lemma loader_faults_touch_nothing_witness :
  build_vectorstore ExampleStore.embeddings Example2.bundle_no_info
    ExampleStore.loaded_world
  = (Raise (KeyError "course_id"), ExampleStore.loaded_world).
Proof.
  apply (proj1 (loader_faults_touch_nothing ExampleStore.embeddings
                  Example2.bundle_no_info ExampleStore.loaded_world)).
  reflexivity.
Defined.

(** The first load of the example bundle, and a load of the edited bundle
    after it. *)
Lemma example_first_load :
  build_vectorstore ExampleStore.embeddings Example.bundle ExampleStore.empty_world
  = (Ok (0, 5), ExampleStore.loaded_world).
Proof. vm_compute. reflexivity. Qed.

Lemma example_second_load :
  build_vectorstore ExampleStore.embeddings Example2.bundle_edited
    ExampleStore.loaded_world
  = (Ok (5, 5),
     (build_vectorstore ExampleStore.embeddings Example2.bundle_edited
        ExampleStore.loaded_world).2).
Proof. vm_compute. reflexivity. Qed.

Lemma example_keys_distinct :
  NoDup (map (fun r => str (Rec.id r)) (records Example.bundle)).
Proof. apply (bool_decide_unpack _). vm_compute. reflexivity. Qed.

Lemma example_edited_keys_distinct :
  NoDup (map (fun r => str (Rec.id r)) (records Example2.bundle_edited)).
Proof. apply (bool_decide_unpack _). vm_compute. reflexivity. Qed.

Lemma store_holds_each_record_witness :
  Forall (fun r =>
            vs_get (collection "module_341_urinary_catheterization"
                      ExampleStore.loaded_world) (str (Rec.id r))
            = Some {| vector := ExampleStore.embeddings (Rec.embedding_text r);
                      document := to_document r |})
    (records Example.bundle).
Proof.
  apply Forall_forall. intros r Hr.
  exact (store_holds_each_record ExampleStore.embeddings Example.bundle
           (SInt 341) "Urinary Catheterization" ExampleStore.empty_world
           ExampleStore.loaded_world 0 5 eq_refl eq_refl example_first_load
           example_keys_distinct r Hr).
Defined.

Lemma loader_never_deletes_witness :
  (forall k,
      is_Some (vs_get (collection "module_341_urinary_catheterization"
                         ExampleStore.loaded_world) k) ->
      is_Some (vs_get (collection "module_341_urinary_catheterization"
                         (build_vectorstore ExampleStore.embeddings
                            Example2.bundle_edited ExampleStore.loaded_world).2) k))
  /\ 5 <= 5 <= 5 + length (records Example2.bundle_edited).
Proof.
  destruct (loader_never_deletes ExampleStore.embeddings Example2.bundle_edited
              (SInt 341) "Urinary Catheterization" ExampleStore.loaded_world
              _ 5 5 eq_refl eq_refl example_second_load)
    as (_ & Hkeep & _ & Hcount).
  split; [exact Hkeep | exact Hcount].
Defined.

Lemma loader_fresh_count_witness :
  5 = 0 + length (records Example.bundle).
Proof.
  apply (loader_fresh_count ExampleStore.embeddings Example.bundle
           (SInt 341) "Urinary Catheterization" ExampleStore.empty_world
           ExampleStore.loaded_world 0 5 eq_refl eq_refl example_first_load
           example_keys_distinct).
  intros r _. apply lookup_empty.
Defined.

Lemma loader_warns_when_nonempty_witness :
  llog (build_vectorstore ExampleStore.embeddings Example.bundle
          ExampleStore.loaded_world).2
  = (llog ExampleStore.loaded_world ++ [CollectionExists 5; Upserting 5])%list.
Proof.
  assert (build_vectorstore ExampleStore.embeddings Example.bundle
            ExampleStore.loaded_world
          = (Ok (5, 5),
             (build_vectorstore ExampleStore.embeddings Example.bundle
                ExampleStore.loaded_world).2)) as Hrun
      by (vm_compute; reflexivity).
  destruct (loader_warns_when_nonempty ExampleStore.embeddings Example.bundle
              (SInt 341) "Urinary Catheterization" _ _ _ _ eq_refl eq_refl Hrun)
    as (_ & _ & _ & Hlog & _).
  rewrite Hlog by lia. vm_compute. reflexivity.
Defined.

Lemma reload_replaces_documents_witness :
  (5 = 5 /\ 5 = 5)
  /\ Forall (fun r =>
               vs_get (collection "module_341_urinary_catheterization"
                         (build_vectorstore ExampleStore.embeddings
                            Example2.bundle_edited ExampleStore.loaded_world).2)
                 (str (Rec.id r))
               = Some {| vector := ExampleStore.embeddings (Rec.embedding_text r);
                         document := to_document r |})
       (records Example2.bundle_edited).
Proof.
  destruct (reload_replaces_documents ExampleStore.embeddings Example.bundle
              Example2.bundle_edited (SInt 341) "Urinary Catheterization"
              ExampleStore.empty_world ExampleStore.loaded_world _ 0 5 5 5
              eq_refl eq_refl eq_refl example_first_load example_second_load
              example_edited_keys_distinct)
    as (Hpre & Hpost & Hget).
  - apply Forall_forall. apply (bool_decide_unpack _). vm_compute. reflexivity.
  - split; [split; assumption|]. apply Forall_forall. exact Hget.
Defined.

Lemma normalized_bundle_loads_witness :
  (exists docs ids,
      load_module_documents Example.bundle tt
      = (Ok (docs, ids, "module_341_urinary_catheterization"), tt)
      /\ length docs = 5 /\ length ids = 5)
  /\ 0 = 0 /\ 5 = total_vectors Example.bundle.
Proof.
  assert (preprocess [Example.raw] Example.world
          = (Ok Example.bundle, (preprocess [Example.raw] Example.world).2)) as Hrun
      by (vm_compute; reflexivity).
  destruct (normalized_bundle_loads ExampleStore.embeddings Example.raw []
              Example.module_fields (SInt 341) "Urinary Catheterization"
              Example.world _ Example.bundle eq_refl eq_refl eq_refl Hrun)
    as (Hload & Hbuild).
  split; [exact (Hload unit tt)|].
  destruct (Hbuild _ _ _ _ example_first_load) as (_ & Hcount).
  apply Hcount; [reflexivity | exact example_keys_distinct].
Defined.

(** X20. The Normalizer does not look at the type of the module name: an
    export whose name is a number is normalized and saved like any other,
    and the Loader then ends with an [AttributeError] on the bundle,
    leaving the store as it was. *)
Theorem numeric_module_name_fails_in_loader :
  forall (V C : Type) (store : VectorStore V C) (embeddings : string -> V)
         (raw : RawModule) (rest : list RawModule) (mf : gmap string scalar)
         (z : Z) (w w' : nworld) (b : ModuleBundle) (lw : lworld C),
    key_module_field raw = Some mf ->
    mf !! "competency_name" = Some (SInt z) ->
    preprocess (raw :: rest) w = (Ok b, w') ->
    build_vectorstore embeddings b lw = (Raise (AttributeError "lower"), lw).
Proof.
  intros V C store embeddings raw rest mf z w w' b lw Hmf Hname Hrun.
  apply preprocess_ok_inv in Hrun
    as (raw' & rest' & mf' & cid & name & groups & Heq & Hmf' & Hcid & _ & _ & Hrun).
  inversion Heq; subst raw' rest'. rewrite Hmf in Hmf'. inversion Hmf'; subst mf'.
  apply render_and_save_ok in Hrun as (Hinfo & _).
  unfold build_vectorstore. unfold bind at 1.
  unfold load_module_documents, bind, getitem. now rewrite Hinfo, Hcid, Hname.
Qed.

Lemma numeric_module_name_fails_in_loader_witness :
  exists b w',
    preprocess [Example2.raw_int_name] Example.world = (Ok b, w')
    /\ build_vectorstore ExampleStore.embeddings b ExampleStore.empty_world
       = (Raise (AttributeError "lower"), ExampleStore.empty_world).
Proof.
  destruct (preprocess [Example2.raw_int_name] Example.world) as [[b|e] w'] eqn:Hrun;
    [|vm_compute in Hrun; discriminate].
  exists b, w'. split; [reflexivity|].
  exact (numeric_module_name_fails_in_loader _ _ _ ExampleStore.embeddings
           Example2.raw_int_name [] Example2.module_fields_int_name 12
           Example.world w' b ExampleStore.empty_world eq_refl eq_refl Hrun).
Defined.

(** ** Collection names *)





(** ** [json.dumps] in the metadata *)

Lemma chars_append (a b : string) : chars (a +:+ b) = (chars a ++ chars b)%list.
Proof. induction a as [|c a IH]; simpl; [reflexivity | now rewrite IH]. Qed.

Lemma escape_char_printable (c : ascii) :
  Forall (fun x => printable x = true) (chars (Json.escape_char c)).
Proof.
  apply (bool_decide_unpack _).
  destruct c as [[] [] [] [] [] [] [] []]; vm_compute; reflexivity.
Qed.

Lemma escape_printable (s : string) :
  Forall (fun x => printable x = true) (chars (Json.escape s)).
Proof.
  induction s as [|c t IH]; simpl; [constructor|].
  rewrite chars_append, Forall_app. split; [apply escape_char_printable | exact IH].
Qed.

Lemma dumps_str_printable (s : string) :
  Forall (fun x => printable x = true) (chars (Json.dumps_str s)).
Proof.
  unfold Json.dumps_str. rewrite !chars_append, !Forall_app.
  split; [repeat constructor|]. split; [apply escape_printable | repeat constructor].
Qed.

Lemma join_printable (sep : string) (items : list string) :
  Forall (fun x => printable x = true) (chars sep) ->
  Forall (fun item => Forall (fun x => printable x = true) (chars item)) items ->
  Forall (fun x => printable x = true) (chars (join sep items)).
Proof.
  intros Hsep. unfold join. induction 1 as [|item items Hitem Hitems IH];
    [constructor|].
  destruct items as [|item' items]; [exact Hitem|].
  change (String.concat sep (item :: item' :: items))
    with (item +:+ sep +:+ String.concat sep (item' :: items)).
  rewrite !chars_append, !Forall_app. auto.
Qed.

(** X22. The [question_ids] string in the metadata of a competency record
    is made of printable ASCII characters only, whatever characters the
    ids hold: [json.dumps] escapes the rest. *)
Theorem question_ids_metadata_is_ascii :
  forall (cid name d : scalar) (g : McqGroup),
    exists text,
      metadata_get "question_ids" (Rec.metadata (competency_record cid name d g))
      = Some (SStr text)
      /\ Forall (fun c => printable c = true) (chars text).
Proof.
  intros cid name d g. eexists. split; [reflexivity|].
  unfold Json.dumps_list. rewrite !chars_append, !Forall_app.
  split; [repeat constructor|]. split; [|repeat constructor].
  apply join_printable; [repeat constructor|].
  apply Forall_forall. intros item Hitem.
  apply list_elem_of_In, in_map_iff in Hitem as (s & <- & _).
  apply dumps_str_printable.
Qed.
